(** * Novalnet payment form for Odoo 17: checkout-session handshake

    A shallow embedding of the two JavaScript modules of the plugin,

    - [payment_form.js]   (the [paymentForm.include({...})] patch), and
    - [payment_novalnet_mixin.js] ([processNovalnetPayment]),

    together with the properties of the handshake between the hosted
    widget, the host checkout form and the remote endpoint.

    JavaScript values are an inductive type, the [paymentContext] object is
    a finite map from property names to values, and every method of the
    form is a computation in a small state-and-exception monad over the
    form object.  Calls into collaborators that the plugin does not own
    (the hosted widget, the generic form, jQuery, the RPC layer, the
    browser) are recorded, in order, in a call log. *)

From Stdlib Require Import ZArith Bool.
From stdpp Require Import gmap strings list.

Set Warnings "-register-all".
Local Open Scope Z_scope.
Local Open Scope string_scope.
Local Open Scope list_scope.

(** ** JavaScript values *)

(** Plain data as it travels between widget, form and server.  Numbers are
    the integer-valued ones (status codes, identifiers); objects are
    property lists, looked up by the first matching key. *)
Inductive jsval : Type :=
  | JUndefined
  | JNull
  | JBool (b : bool)
  | JNum (n : Z)
  | JStr (s : string)
  | JObj (fields : list (string * jsval)).

(** What a [throw], or a rejected promise, carries. [RPCError] is the class
    exported by the RPC service; [error instanceof RPCError] holds for it
    alone. *)
Inductive jserror : Type :=
  | TypeError
  | RPCError (data : jsval)
  | OtherError (name : string).

Definition instanceof_RPCError (e : jserror) : bool :=
  match e with RPCError _ => true | _ => false end.

(** Completion of an evaluation: a value, or an abrupt completion. *)
Inductive completion (A : Type) : Type :=
  | Normal (a : A)
  | Abrupt (e : jserror).
Arguments Normal {A} a.
Arguments Abrupt {A} e.

(** State of a promise once it has settled. *)
Inductive promise : Type :=
  | Fulfilled (v : jsval)
  | Rejected (e : jserror).

Fixpoint lookup_field (k : string) (fs : list (string * jsval)) : jsval :=
  match fs with
  | [] => JUndefined
  | (k', v) :: fs' => if String.eqb k' k then v else lookup_field k fs'
  end.

Fixpoint has_field (k : string) (fs : list (string * jsval)) : bool :=
  match fs with
  | [] => false
  | (k', _) :: fs' => String.eqb k' k || has_field k fs'
  end.

(** [v.k]: reading a property of [undefined] or [null] throws; a missing
    property, or any property of a primitive that is asked for here, reads
    as [undefined]. *)
Definition get_prop (v : jsval) (k : string) : completion jsval :=
  match v with
  | JUndefined | JNull => Abrupt TypeError
  | JObj fs => Normal (lookup_field k fs)
  | JBool _ | JNum _ | JStr _ => Normal JUndefined
  end.

(** Does the object [v] carry an own property [k]? *)
Definition has_prop (v : jsval) (k : string) : bool :=
  match v with
  | JObj fs => has_field k fs
  | _ => false
  end.

(** ToBoolean. *)
Definition truthy (v : jsval) : bool :=
  match v with
  | JUndefined | JNull => false
  | JBool b => b
  | JNum n => negb (Z.eqb n 0)
  | JStr s => negb (String.eqb s EmptyString)
  | JObj _ => true
  end.

Definition nullish (v : jsval) : bool :=
  match v with
  | JUndefined | JNull => true
  | _ => false
  end.

(** [v === 'lit'] for a string literal. *)
Definition strict_eq_str (v : jsval) (lit : string) : bool :=
  match v with
  | JStr s => String.eqb s lit
  | _ => false
  end.

(** The acknowledgment pairs handed back to the widget. *)
Definition FAILURE_ack : jsval :=
  JObj [("status", JStr "FAILURE"); ("statusText", JStr "Failure")].
Definition SUCCESS_ack : jsval :=
  JObj [("status", JStr "SUCCESS"); ("statusText", JStr "Successful")].

(** ** Calls into collaborators *)

(** One constructor per call the plugin makes on something it does not own. *)
Inductive Call : Type :=
  | ev_stopPropagation
  | ev_preventDefault
  | call_disableButton (blockUI : bool)
  | call_enableButton
  | call_displayErrorDialog (args : list jsval)
  | call_initiatePaymentFlow (providerCode paymentOptionId pmCode flow : jsval)
  | call_assignToken (paymentOptionId : jsval)
  | call_setPaymentFlow (flow : string)
  | call_ui_unblock
  | super_start
  | super_submitForm
  | super_prepareInlineForm
  | super_processDirectFlow
  | widget_new (w : nat)
  | widget_initiate (w : nat) (request : jsval)
  | widget_selectedPayment (w : nat)
  | widget_walletResponse (w : nat)
  | widget_getPayment (w : nat)
  | widget_uncheckPayment (w : nat)
  | jq_css_padding_0
  | jq_on_window_change
  | jq_on_provider_click
  | jq_trigger_click_novalnet_radio
  | payButton_set_display (display : string)
  | call_jsonrpc (route : string) (params : list (string * jsval))
  | set_window_location (path : string).

Definition is_widget_call (c : Call) : bool :=
  match c with
  | widget_new _ | widget_initiate _ _ | widget_selectedPayment _
  | widget_walletResponse _ | widget_getPayment _ | widget_uncheckPayment _ => true
  | _ => false
  end.

Definition is_remote_call (c : Call) : bool :=
  match c with
  | call_jsonrpc _ _ => true
  | _ => false
  end.

Definition is_dialog (c : Call) : bool :=
  match c with
  | call_displayErrorDialog _ => true
  | _ => false
  end.

Definition is_initiatePaymentFlow (c : Call) : bool :=
  match c with
  | call_initiatePaymentFlow _ _ _ _ => true
  | _ => false
  end.

Definition is_enableButton (c : Call) : bool :=
  match c with
  | call_enableButton => true
  | _ => false
  end.



(** ** The host framework *)

(** What the plugin takes from its surroundings and does not define: the
    generic form's readers of the checked radio input, the translation
    function [_t], and the runtime's string-to-number conversion (used by
    [==]; [None] stands for a result that is no integer). *)
Class HostForm (Radio : Type) : Type := {
  _getProviderCode : Radio -> jsval;
  _getPaymentOptionId : Radio -> jsval;
  _getPaymentMethodCode : Radio -> jsval;
  _getProviderId : Radio -> jsval;
  _getPaymentOptionType : Radio -> jsval;
  _getPaymentFlow : gmap string jsval -> Radio -> jsval;
  (** [this._getInlineForm(radio)?.querySelector('[name="o_payment_tokenize_checkbox"]')?.checked] *)
  tokenize_checkbox_checked : Radio -> jsval;
  _t : jsval -> jsval;
  StringToNumber : string -> option Z
}.

(** A widget object made by [new NovalnetPaymentForm()], seen from outside:
    how many times each of its two notification channels has been given a
    callback. *)
Record NovalnetPaymentForm : Type := mkWidget {
  selectedPayment_registrations : nat;
  walletResponse_registrations : nat
}.

(** The two function literals that [start] hands to jQuery's [.on]. *)
Inductive Listener : Type :=
  | window_change_listener
  | provider_click_listener.

(** [needle] occurs in [hay]: [hay.includes(needle)]. *)
Fixpoint includes (needle hay : string) : bool :=
  String.prefix needle hay ||
  match hay with
  | EmptyString => false
  | String _ hay' => includes needle hay'
  end.

Section PaymentForm.

Context {Radio : Type} `{Host : HostForm Radio}.

(** ** The form object and the page around it *)

Record Form : Type := mkForm {
  paymentContext : gmap string jsval;
  (** [this.el.querySelector('input[name="o_payment_radio"]:checked')] *)
  checkedRadio : option Radio;
  (** the payment radio that [$('[data-provider-radio="o_payment_method_novalnet"]')]
      selects, if the page has it *)
  novalnet_radio_input : option Radio;
  (** [$('[data-provider-radio="o_payment_method_novalnet"]').is(':checked')] *)
  novalnet_radio_checked : bool;
  (** [style.display] of [button[name="o_payment_submit_button"]], if the
      page has that button *)
  payButton : option string;
  buttonDisabled : bool;
  uiBlocked : bool;
  (** [window.location.pathname] *)
  pathname : string;
  (** [this.novalnetPaymentIframe]: index into [widgets] *)
  novalnetPaymentIframe : option nat;
  widgets : list NovalnetPaymentForm;
  (** handlers attached with [$(window).on('change', ...)] *)
  window_change : list Listener;
  (** handlers attached with [$('[data-provider-code]').on('click', ...)] *)
  provider_click : list Listener;
  (** calls made so far, oldest first *)
  calls : list Call
}.

Definition with_paymentContext (pc : gmap string jsval) (f : Form) : Form :=
  mkForm pc (checkedRadio f) (novalnet_radio_input f) (novalnet_radio_checked f) (payButton f)
         (buttonDisabled f) (uiBlocked f) (pathname f) (novalnetPaymentIframe f)
         (widgets f) (window_change f) (provider_click f) (calls f).

Definition with_payButton (b : option string) (f : Form) : Form :=
  mkForm (paymentContext f) (checkedRadio f) (novalnet_radio_input f) (novalnet_radio_checked f) b
         (buttonDisabled f) (uiBlocked f) (pathname f) (novalnetPaymentIframe f)
         (widgets f) (window_change f) (provider_click f) (calls f).

Definition with_button (disabled blocked : bool) (f : Form) : Form :=
  mkForm (paymentContext f) (checkedRadio f) (novalnet_radio_input f) (novalnet_radio_checked f) (payButton f)
         disabled blocked (pathname f) (novalnetPaymentIframe f)
         (widgets f) (window_change f) (provider_click f) (calls f).

Definition with_widgets (cur : option nat) (ws : list NovalnetPaymentForm)
    (f : Form) : Form :=
  mkForm (paymentContext f) (checkedRadio f) (novalnet_radio_input f) (novalnet_radio_checked f) (payButton f)
         (buttonDisabled f) (uiBlocked f) (pathname f) cur
         ws (window_change f) (provider_click f) (calls f).

Definition with_listeners (wc pc : list Listener) (f : Form) : Form :=
  mkForm (paymentContext f) (checkedRadio f) (novalnet_radio_input f) (novalnet_radio_checked f) (payButton f)
         (buttonDisabled f) (uiBlocked f) (pathname f) (novalnetPaymentIframe f)
         (widgets f) wc pc (calls f).

(** The radio that is checked in the page. *)
Definition with_checked (r : option Radio) (novalnet : bool) (f : Form) : Form :=
  mkForm (paymentContext f) r (novalnet_radio_input f) novalnet (payButton f)
         (buttonDisabled f) (uiBlocked f) (pathname f) (novalnetPaymentIframe f)
         (widgets f) (window_change f) (provider_click f) (calls f).

Definition with_calls (cs : list Call) (f : Form) : Form :=
  mkForm (paymentContext f) (checkedRadio f) (novalnet_radio_input f) (novalnet_radio_checked f) (payButton f)
         (buttonDisabled f) (uiBlocked f) (pathname f) (novalnetPaymentIframe f)
         (widgets f) (window_change f) (provider_click f) cs.

(** ** Computations on the form *)

(** A method body: it may change the form and either returns or throws;
    what it changed before throwing stays changed. *)
Definition js (A : Type) : Type := Form -> completion A * Form.

Definition ret {A : Type} (a : A) : js A := fun f => (Normal a, f).

Definition throw {A : Type} (e : jserror) : js A := fun f => (Abrupt e, f).

Definition bind {A B : Type} (m : js A) (k : A -> js B) : js B :=
  fun f =>
    match m f with
    | (Normal a, f') => k a f'
    | (Abrupt e, f') => (Abrupt e, f')
    end.

Definition lift {A : Type} (c : completion A) : js A := fun f => (c, f).

Notation "'let*' x ':=' m 'in' k" := (bind m (fun x => k))
  (at level 10, x name, m at level 100, k at level 200).
Notation "m '>>' k" := (bind m (fun _ => k))
  (at level 100, k at level 200, right associativity).

(** Calling an [async] function whose body has no [await]: the body runs
    to its end at once, a throw inside it rejects the promise that is
    returned and is not seen by the caller as an exception. *)
Definition async_call (body : js jsval) : js promise :=
  fun f =>
    match body f with
    | (Normal v, f') => (Normal (Fulfilled v), f')
    | (Abrupt e, f') => (Normal (Rejected e), f')
    end.

Definition log (c : Call) : js unit :=
  fun f => (Normal tt, with_calls (calls f ++ [c]) f).

(** [this.paymentContext[k]]: a property that is not there reads [undefined]. *)
Definition ctx_read (pc : gmap string jsval) (k : string) : jsval :=
  default JUndefined (pc !! k).

Definition ctx_get (k : string) : js jsval :=
  fun f => (Normal (ctx_read (paymentContext f) k), f).

(** [this.paymentContext[k] = v] *)
Definition ctx_set (k : string) (v : jsval) : js unit :=
  fun f => (Normal tt, with_paymentContext (<[k := v]> (paymentContext f)) f).

Definition querySelector_checked : js (option Radio) :=
  fun f => (Normal (checkedRadio f), f).

(** A reader of the generic form applied to what [querySelector] found;
    the readers dereference the element, so [null] makes them throw. *)
Definition on_radio (reader : Radio -> jsval) (radio : option Radio) : js jsval :=
  match radio with
  | Some r => ret (reader r)
  | None => throw TypeError
  end.

(** The generic form's button methods: [_disableButton(blockUI)] disables
    the submit button and, when asked, blocks the UI; [_enableButton()]
    enables the button and unblocks the UI. *)
Definition _disableButton (blockUI : bool) : js unit :=
  log (call_disableButton blockUI) >>
  fun f => (Normal tt, with_button true (uiBlocked f || blockUI) f).

Definition _enableButton : js unit :=
  log call_enableButton >>
  fun f => (Normal tt, with_button false false f).

Definition ui_unblock : js unit :=
  log call_ui_unblock >>
  fun f => (Normal tt, with_button (buttonDisabled f) false f).

Definition _displayErrorDialog (args : list jsval) : js unit :=
  log (call_displayErrorDialog args).

Definition _initiatePaymentFlow (providerCode paymentOptionId pmCode flow : jsval)
  : js unit :=
  log (call_initiatePaymentFlow providerCode paymentOptionId pmCode flow).

(** ** [payment_form.js] *)

(** [set_nn_payment_details(response)], the body.  The context key
    [pm_data] receives [response.payment_details] and the context key
    [payment_details] receives [response.booking_details]. *)
Definition set_nn_payment_details_body (response : jsval) : js jsval :=
  let* payment_details := lift (get_prop response "payment_details") in
  ctx_set "pm_data" payment_details >>
  let* booking_details := lift (get_prop response "booking_details") in
  ctx_set "payment_details" booking_details >>
  let* process_mode := lift (get_prop payment_details "process_mode") in
  ctx_set "flow" process_mode >>
  let* wallet_token := lift (get_prop booking_details "wallet_token") in
  (if truthy wallet_token then ctx_set "wallet_token" wallet_token else ret tt) >>
  let* card_details := lift (get_prop response "card_details") in
  (if truthy card_details then ctx_set "card_details" card_details else ret tt) >>
  ret JUndefined.

(** The method is declared [async] and is called without [await]. *)
Definition set_nn_payment_details (response : jsval) : js promise :=
  async_call (set_nn_payment_details_body response).

(** [inlineForm?.querySelector(...)?.checked ?? this.paymentContext['mode'] === 'validation'] *)
Definition tokenizationRequested_of (radio : option Radio) : js jsval :=
  let* checked := on_radio tokenize_checkbox_checked radio in
  if nullish checked
  then let* mode := ctx_get "mode" in ret (JBool (strict_eq_str mode "validation"))
  else ret checked.

(** The [onProcessCompletion] handler given to [walletResponse] in [start]. *)
Definition onProcessCompletion (response : jsval) : js jsval :=
  _disableButton false >>
  let* result := lift (get_prop response "result") in
  let* status := lift (get_prop result "status") in
  if strict_eq_str status "FAILURE" then ret FAILURE_ack
  else
    let* checkedRadio := querySelector_checked in
    let* providerCode := on_radio _getProviderCode checkedRadio in
    ctx_set "providerCode" providerCode >>
    if negb (strict_eq_str providerCode "novalnet") then ret FAILURE_ack
    else
      let* paymentOptionId := on_radio _getPaymentOptionId checkedRadio in
      ctx_set "paymentOptionId" paymentOptionId >>
      let* pmCode := on_radio _getPaymentMethodCode checkedRadio in
      ctx_set "paymentMethodCode" pmCode >>
      let* _ := set_nn_payment_details response in
      let* providerId := on_radio _getProviderId checkedRadio in
      ctx_set "providerId" providerId >>
      ctx_set "paymentMethodId" paymentOptionId >>
      let* tokenizationRequested := tokenizationRequested_of checkedRadio in
      ctx_set "tokenizationRequested" tokenizationRequested >>
      let* flow := ctx_get "flow" in
      _initiatePaymentFlow providerCode paymentOptionId pmCode flow >>
      ret SUCCESS_ack.

(** [this.novalnetPaymentIframe.m(...)]: the widget object the form holds
    now; there is none before [start] has run. *)
Definition on_widget (m : nat -> Call) : js unit :=
  fun f =>
    match novalnetPaymentIframe f with
    | Some w => log (m w) f
    | None => (Abrupt TypeError, f)
    end.

(** [x == 100] *)
Definition loose_eq_100 (x : jsval) : bool :=
  match x with
  | JNum n => Z.eqb n 100
  | JStr s => match StringToNumber s with Some n => Z.eqb n 100 | None => false end
  | JUndefined | JNull | JBool _ | JObj _ => false
  end.

(** [data.result && data.result.statusCode == 100] *)
Definition getPayment_accepted (data : jsval) : js bool :=
  let* result := lift (get_prop data "result") in
  if truthy result
  then let* statusCode := lift (get_prop result "statusCode") in
       ret (loose_eq_100 statusCode)
  else ret false.

Definition getPayment_accept (providerCode paymentOptionId pmCode data : jsval)
  : js unit :=
  let* _ := set_nn_payment_details data in
  let* flow := ctx_get "flow" in
  _initiatePaymentFlow providerCode paymentOptionId pmCode flow >>
  fun f => if includes "/donation" (pathname f) then ui_unblock f else (Normal tt, f).

Definition getPayment_reject (data : jsval) : js unit :=
  let* result := lift (get_prop data "result") in
  let* message := lift (get_prop result "message") in
  _displayErrorDialog [_t message] >>
  _enableButton.

(** The arrow function given to [getPayment] in [_submitForm]; it closes
    over [providerCode], [paymentOptionId] and [pmCode]. *)
Definition getPayment_callback (providerCode paymentOptionId pmCode data : jsval)
  : js unit :=
  let* accepted := getPayment_accepted data in
  if accepted
  then getPayment_accept providerCode paymentOptionId pmCode data
  else getPayment_reject data.

(** How [_submitForm] leaves: through the generic handler, after the token
    assignment, or with its callback handed to the widget (the three values
    are the ones the callback closes over). *)
Inductive SubmitOutcome : Type :=
  | delegated_to_super
  | token_assigned
  | awaiting_getPayment (providerCode paymentOptionId pmCode : jsval).

Definition _submitForm : js SubmitOutcome :=
  log ev_stopPropagation >>
  log ev_preventDefault >>
  let* checkedRadio := querySelector_checked in
  _disableButton true >>
  let* flow := (fun f => on_radio (_getPaymentFlow (paymentContext f)) checkedRadio f) in
  ctx_set "flow" flow >>
  let* paymentOptionId := on_radio _getPaymentOptionId checkedRadio in
  ctx_set "paymentOptionId" paymentOptionId >>
  let* providerCode := on_radio _getProviderCode checkedRadio in
  ctx_set "providerCode" providerCode >>
  if negb (strict_eq_str providerCode "novalnet")
  then log super_submitForm >> ret delegated_to_super
  else
    let* assignTokenRoute := ctx_get "assignTokenRoute" in
    if strict_eq_str flow "token" && truthy assignTokenRoute
    then log (call_assignToken paymentOptionId) >> ret token_assigned
    else
      let* pmCode := on_radio _getPaymentMethodCode checkedRadio in
      ctx_set "paymentMethodCode" pmCode >>
      let* providerId := on_radio _getProviderId checkedRadio in
      ctx_set "providerId" providerId >>
      let* optionType := on_radio _getPaymentOptionType checkedRadio in
      (if strict_eq_str optionType "token"
       then ctx_set "tokenId" paymentOptionId
       else ctx_set "paymentMethodId" paymentOptionId) >>
      let* tokenizationRequested := tokenizationRequested_of checkedRadio in
      ctx_set "tokenizationRequested" tokenizationRequested >>
      on_widget widget_getPayment >>
      ret (awaiting_getPayment providerCode paymentOptionId pmCode).

(** [{...transactionRouteParams, ...nn_payment_details}]: the keys of the
    second object win. *)
Definition _prepareTransactionRouteParams (transactionRouteParams : gmap string jsval)
  : js (gmap string jsval) :=
  let* providerCode := ctx_get "providerCode" in
  if negb (strict_eq_str providerCode "novalnet") then ret transactionRouteParams
  else
    let* payment_details := ctx_get "payment_details" in
    let* pm_data := ctx_get "pm_data" in
    let nn_payment_details : gmap string jsval :=
      <["pm_data" := pm_data]> (<["pay_data" := payment_details]> ∅) in
    ret (nn_payment_details ∪ transactionRouteParams).

Definition _prepareInlineForm (providerCode flow : jsval) : js unit :=
  if negb (strict_eq_str providerCode "novalnet") then log super_prepareInlineForm
  else if strict_eq_str flow "token" then ret tt
  else log (call_setPaymentFlow "direct").

(** ** [payment_novalnet_mixin.js] *)

(** The object that [this] denotes inside [processNovalnetPayment], as far
    as the method looks at it: whether it has the two methods it calls. *)
Record Receiver : Type := mkReceiver {
  has_displayErrorDialog : bool;
  has_enableButton : bool
}.

(** The module's default export is an object literal whose only property
    is [processNovalnetPayment]. *)
Definition paymentNovalnetMixin : Receiver := mkReceiver false false.

(** How the promise made by [jsonrpc] settles. *)
Inductive RpcReply : Type :=
  | rpc_resolved
  | rpc_rejected (error : jserror).

Definition simulate_payment_route : string := "/payment/novalnet/simulate_payment".
Definition status_page : string := "/payment/status".

(** [.then(() => { window.location = '/payment/status'; })] *)
Definition then_callback : js jsval :=
  log (set_window_location status_page) >> ret JUndefined.

(** [error.data] *)
Definition error_data (error : jserror) : jsval :=
  match error with
  | RPCError data => data
  | TypeError | OtherError _ => JUndefined
  end.

(** [.catch(error => {...})].  An abrupt completion here stands for the
    promise made by [.catch] being rejected, which is what both a throw in
    the handler and [return Promise.reject(error)] lead to.  In a call the
    arguments are evaluated before the callee is found not to be a
    function. *)
Definition catch_callback (this : Receiver) (error : jserror) : js jsval :=
  if instanceof_RPCError error then
    let* message := lift (get_prop (error_data error) "message") in
    (if has_displayErrorDialog this
     then _displayErrorDialog [_t (JStr "Payment processing failed"); message]
     else throw TypeError) >>
    (if has_enableButton this then _enableButton else ret tt) >>
    ret JUndefined
  else throw error.

(** [processNovalnetPayment(processingValues)] on receiver [this], with the
    reply the remote call will get.  The first component is the promise the
    [async] method returns to its caller; the chain
    [jsonrpc(...).then(...).catch(...)] is neither awaited nor returned, and
    the second component is how that chain settles (there is no chain when
    the method body throws before the remote call is made). *)
Definition processNovalnetPayment (this : Receiver) (processingValues : jsval)
    (reply : RpcReply) : js (promise * option promise) :=
  let* returned := async_call (
    let* reference := lift (get_prop processingValues "reference") in
    let* nn_tid := lift (get_prop processingValues "nn_tid") in
    log (call_jsonrpc simulate_payment_route
           [("reference", reference); ("nn_tid", nn_tid)]) >>
    ret JUndefined) in
  match returned with
  | Rejected _ => ret (returned, None)
  | Fulfilled _ =>
      let* chain :=
        match reply with
        | rpc_resolved => async_call then_callback
        | rpc_rejected error => async_call (catch_callback this error)
        end in
      ret (returned, Some chain)
  end.

(** [_processDirectFlow] of the form: the mixin's method is called on the
    mixin object, [paymentNovalnetMixin.processNovalnetPayment(...)]. *)
Definition _processDirectFlow
    (providerCode paymentOptionId paymentMethodCode processingValues : jsval)
    (reply : RpcReply) : js (option (promise * option promise)) :=
  if negb (strict_eq_str providerCode "novalnet")
  then log super_processDirectFlow >> ret None
  else
    let* settled := processNovalnetPayment paymentNovalnetMixin processingValues reply in
    ret (Some settled).

(** ** [start] and the handlers it installs *)

Definition paymentFormRequestObj : jsval :=
  JObj [("iframe", JStr "#novalnet_iframe");
        ("initForm", JObj [("orderInformation", JObj []);
                           ("uncheckPayments", JBool true);
                           ("setWalletPending", JBool true);
                           ("showButton", JBool false)])].

(** [this.novalnetPaymentIframe = new NovalnetPaymentForm()] *)
Definition new_NovalnetPaymentForm : js unit :=
  fun f =>
    let w := length (widgets f) in
    log (widget_new w)
        (with_widgets (Some w) (widgets f ++ [mkWidget 0 0]) f).

Definition widget_register (m : nat -> Call)
    (upd : NovalnetPaymentForm -> NovalnetPaymentForm) : js unit :=
  fun f =>
    match novalnetPaymentIframe f with
    | Some w =>
        log (m w) (with_widgets (Some w) (alter upd w (widgets f)) f)
    | None => (Abrupt TypeError, f)
    end.

(** jQuery's [.on] adds the handler to those already attached. *)
Definition jq_on_change (l : Listener) : js unit :=
  log jq_on_window_change >>
  fun f => (Normal tt, with_listeners (window_change f ++ [l]) (provider_click f) f).

Definition jq_on_click (l : Listener) : js unit :=
  log jq_on_provider_click >>
  fun f => (Normal tt, with_listeners (window_change f) (provider_click f ++ [l]) f).

Definition start : js unit :=
  log super_start >>
  new_NovalnetPaymentForm >>
  on_widget (fun w => widget_initiate w paymentFormRequestObj) >>
  log jq_css_padding_0 >>
  jq_on_change window_change_listener >>
  widget_register widget_selectedPayment
    (fun o => mkWidget (S (selectedPayment_registrations o))
                       (walletResponse_registrations o)) >>
  jq_on_click provider_click_listener >>
  widget_register widget_walletResponse
    (fun o => mkWidget (selectedPayment_registrations o)
                       (S (walletResponse_registrations o))).

(** [payButton.style.display = d] *)
Definition payButton_style_display (d : string) : js unit :=
  fun f =>
    match payButton f with
    | Some _ => log (payButton_set_display d) (with_payButton (Some d) f)
    | None => (Abrupt TypeError, f)
    end.

(** The handler of [$(window).on('change', ...)]. *)
Definition on_window_change : js unit :=
  fun f =>
    if negb (novalnet_radio_checked f)
    then payButton_style_display "block" f
    else (Normal tt, f).

(** The handler of [$('[data-provider-code]').on('click', ...)];
    [provider_code] is [$(this).data('provider-code')] of the clicked
    element. *)
Definition on_provider_click (provider_code : jsval) : js unit :=
  if negb (strict_eq_str provider_code "novalnet")
  then on_widget widget_uncheckPayment
  else ret tt.

(** [$('[data-provider-radio="o_payment_method_novalnet"]').trigger('click')]:
    on a page that has this provider's radio the click checks it, so that
    it is the checked payment radio from then on; on a page without it the
    jQuery set is empty and nothing happens.  The handlers that the click
    reaches find the radio checked. *)
Definition click_novalnet_radio : js unit :=
  log jq_trigger_click_novalnet_radio >>
  fun f =>
    match novalnet_radio_input f with
    | Some r => (Normal tt, with_checked (Some r) true f)
    | None => (Normal tt, f)
    end.

(** The callback given to [selectedPayment]. *)
Definition selectedPayment_callback (data : jsval) : js unit :=
  click_novalnet_radio >>
  fun f =>
    match payButton f with
    | Some _ =>
        (let* payment_details := lift (get_prop data "payment_details") in
         let* type := lift (get_prop payment_details "type") in
         payButton_style_display
           (if strict_eq_str type "GOOGLEPAY" || strict_eq_str type "APPLEPAY"
            then "none" else "block")) f
    | None => (Normal tt, f)
    end.

Definition run_listener (l : Listener) (provider_code : jsval) : js unit :=
  match l with
  | window_change_listener => on_window_change
  | provider_click_listener => on_provider_click provider_code
  end.

(** jQuery runs the attached handlers in the order they were attached. *)
Fixpoint dispatch (ls : list Listener) (provider_code : jsval) : js unit :=
  match ls with
  | [] => ret tt
  | l :: ls' => run_listener l provider_code >> dispatch ls' provider_code
  end.

(** A [change] event reaching [window]. *)
Definition fire_window_change : js unit :=
  fun f => dispatch (window_change f) JUndefined f.

(** A click on an element carrying [data-provider-code]. *)
Definition fire_provider_click (provider_code : jsval) : js unit :=
  fun f => dispatch (provider_click f) provider_code f.

End PaymentForm.

(** ** One checkout attempt on the direct flow *)

Section Attempt.

Context {Radio : Type} `{Host : HostForm Radio}.

(** The entry points of the plugin in the order the collaborators drive
    them: the user submits, the widget answers [getPayment] with [data],
    and, when the answer was accepted and the generic flow has obtained
    [processingValues], the form's [_processDirectFlow] runs and the remote
    call receives [reply]. *)
Definition checkout_attempt (data processingValues : jsval) (reply : RpcReply)
  : js (Radio := Radio) unit :=
  bind _submitForm (fun outcome =>
  match outcome with
  | awaiting_getPayment providerCode paymentOptionId pmCode =>
      bind (getPayment_callback providerCode paymentOptionId pmCode data) (fun _ =>
      bind (getPayment_accepted data) (fun accepted =>
      if accepted
      then bind (_processDirectFlow providerCode paymentOptionId pmCode
                   processingValues reply) (fun _ => ret tt)
      else ret tt))
  | delegated_to_super | token_assigned => ret tt
  end).

End Attempt.

(** ** A concrete shop page *)

(** One host and a few pages, answers and replies on which the methods
    above can be evaluated.  The readers of this host take their values
    from the radio's [data-*] attributes; nothing below is part of the
    plugin. *)
Module Shop.

(** A radio input of the payment form with its [data-*] attributes. *)
Record radio : Type := mkRadio {
  data_provider_code : string;
  data_payment_option_id : Z;
  data_payment_method_code : string;
  data_provider_id : Z;
  data_payment_option_type : string
}.

Definition flow_of (pc : gmap string jsval) (r : radio) : jsval :=
  if String.eqb (data_payment_option_type r) "token"
     || strict_eq_str (ctx_read pc "flow") "token"
  then JStr "token"
  else if strict_eq_str (ctx_read pc "flow") "redirect" then JStr "redirect"
  else JStr "direct".

Fixpoint digits (s : string) (acc : Z) : option Z :=
  match s with
  | EmptyString => Some acc
  | String c s' =>
      let d := (Z.of_nat (Ascii.nat_of_ascii c) - 48)%Z in
      if ((0 <=? d) && (d <=? 9))%Z then digits s' (10 * acc + d)%Z else None
  end.

(** A host whose translation function is [tr]. *)
Definition host_with (tr : jsval -> jsval) : HostForm radio := {|
  _getProviderCode r := JStr (data_provider_code r);
  _getPaymentOptionId r := JNum (data_payment_option_id r);
  _getPaymentMethodCode r := JStr (data_payment_method_code r);
  _getProviderId r := JNum (data_provider_id r);
  _getPaymentOptionType r := JStr (data_payment_option_type r);
  _getPaymentFlow := flow_of;
  tokenize_checkbox_checked _ := JUndefined;
  _t := tr;
  StringToNumber s := digits s 0
|}.

(** No term has a translation. *)
Definition untranslated (term : jsval) : jsval := term.

(** A German catalogue that knows one term. *)
Definition german (term : jsval) : jsval :=
  if strict_eq_str term "Card declined" then JStr "Karte abgelehnt" else term.

#[export] Instance host : HostForm radio := host_with untranslated.

Definition novalnet_radio : radio := mkRadio "novalnet" 7 "novalnet" 3 "payment_method".
Definition demo_radio : radio := mkRadio "demo" 9 "demo" 5 "payment_method".

(** The form as the page shows it before [start], with [checked] the
    selected radio. *)
Definition page (checked : option radio) (pc : gmap string jsval) : Form :=
  mkForm pc checked (Some novalnet_radio)
         (match checked with
          | Some r => String.eqb (data_provider_code r) "novalnet"
          | None => false
          end)
         (Some "block") false false "/shop/payment" None [] [] [] [].

(** The same page once [start] has run. *)
Definition started (checked : option radio) (pc : gmap string jsval) : Form :=
  snd (start (page checked pc)).

Definition card_payment_details : jsval :=
  JObj [("type", JStr "CREDITCARD"); ("process_mode", JStr "direct")].

Definition wallet_payment_details : jsval :=
  JObj [("type", JStr "GOOGLEPAY"); ("process_mode", JStr "direct")].

(** A wallet completion that the widget reports as successful. *)
Definition wallet_success : jsval :=
  JObj [("result", JObj [("status", JStr "SUCCESS")]);
        ("payment_details", wallet_payment_details);
        ("booking_details", JObj [("wallet_token", JStr "tok_9f2")])].

(** A wallet completion that the widget reports as failed. *)
Definition wallet_failure : jsval :=
  JObj [("result", JObj [("status", JStr "FAILURE");
                         ("message", JStr "Authentication failed")])].

(** A [getPayment] answer that is accepted. *)
Definition payment_accepted : jsval :=
  JObj [("result", JObj [("statusCode", JNum 100)]);
        ("payment_details", card_payment_details);
        ("booking_details", JObj [("test_mode", JNum 1)]);
        ("card_details", JObj [("card_brand", JStr "visa")])].

(** A [getPayment] answer that is rejected. *)
Definition card_declined : jsval :=
  JObj [("result", JObj [("statusCode", JNum 150);
                         ("message", JStr "Card declined")])].

(** A [getPayment] answer without [result]. *)
Definition no_result : jsval := JObj [("payment_details", card_payment_details)].

(** A widget result whose booking details carry an empty wallet token and
    which has no card details. *)
Definition empty_wallet_token : jsval :=
  JObj [("payment_details", wallet_payment_details);
        ("booking_details", JObj [("wallet_token", JStr EmptyString)])].

Definition processing_values : jsval :=
  JObj [("reference", JStr "S00042-1"); ("nn_tid", JStr "15086600037449272")].

Definition reference_expired : jserror :=
  RPCError (JObj [("message", JStr "Reference expired")]).

End Shop.

(** ** Repeated starts *)

Section Repeated.

Context {Radio : Type}.

(** [start] run [n] times in a row on the same form. *)
Fixpoint start_times (n : nat) : js (Radio := Radio) unit :=
  match n with
  | O => ret tt
  | S n' => bind (start_times n') (fun _ => start)
  end.

End Repeated.

Definition is_navigation (c : Call) : bool :=
  match c with
  | set_window_location _ => true
  | _ => false
  end.

Definition is_super_call (c : Call) : bool :=
  match c with
  | super_start | super_submitForm | super_prepareInlineForm
  | super_processDirectFlow => true
  | _ => false
  end.

(** * Properties *)

(** Unfolds the monad so that a method applied to a form computes. *)
Ltac run :=
  cbv beta delta [bind ret throw lift log ctx_get ctx_set querySelector_checked
                  on_radio _disableButton _enableButton ui_unblock
                  _displayErrorDialog _initiatePaymentFlow on_widget async_call];
  cbn beta iota zeta.

Lemma strict_eq_str_true (v : jsval) (lit : string) :
  strict_eq_str v lit = true <-> v = JStr lit.
Proof.
  destruct v; simpl; split; try discriminate.
  - intros E. apply String.eqb_eq in E. now subst.
  - intros E. injection E as ->. apply String.eqb_refl.
Qed.

Lemma get_prop_Normal (v : jsval) (k : string) :
  nullish v = false -> exists x, get_prop v k = Normal x.
Proof. destruct v; simpl; try discriminate; eauto. Qed.

(** ** The wallet completion handler *)

(** C1. When the widget does not report FAILURE and the radio that is
    checked when the callback fires belongs to another provider, the
    handler returns the pair [{status: 'FAILURE', statusText: 'Failure'}]
    as its own (synchronous) result, writes nothing but [providerCode]
    into the context, so that no payment details are recorded, and makes
    no call besides [_disableButton(false)], so that the payment flow is
    not initiated. *)
Theorem stale_selection_is_failure {Radio : Type} `{Host : HostForm Radio}
    (f : Form) (response result status : jsval) (radio : Radio) :
  get_prop response "result" = Normal result ->
  get_prop result "status" = Normal status ->
  strict_eq_str status "FAILURE" = false ->
  checkedRadio f = Some radio ->
  strict_eq_str (_getProviderCode radio) "novalnet" = false ->
  exists f' : Form,
    onProcessCompletion response f = (Normal FAILURE_ack, f') /\
    paymentContext f' = <["providerCode" := _getProviderCode radio]> (paymentContext f) /\
    (forall k, In k ["pm_data"; "payment_details"; "flow"; "wallet_token"; "card_details"] ->
       paymentContext f' !! k = paymentContext f !! k) /\
    calls f' = calls f ++ [call_disableButton false] /\
    filter (fun c => is_initiatePaymentFlow c) (calls f') =
      filter (fun c => is_initiatePaymentFlow c) (calls f).
Proof.
  intros Hres Hst Hnf Hradio Hprov.
  unfold onProcessCompletion. run.
  rewrite Hres, Hst, Hnf. cbn. rewrite Hradio. cbn. rewrite Hprov. cbn.
  eexists. split; [reflexivity|]. cbn.
  repeat split.
  - intros k Hk. cbn in Hk.
    rewrite lookup_insert_ne; [reflexivity|].
    intuition (subst; discriminate).
  - rewrite filter_app. cbn. now rewrite app_nil_r.
Qed.

Lemma stale_selection_is_failure_witness :
  exists f' : Form,
    onProcessCompletion (Host := Shop.host) Shop.wallet_success
        (Shop.started (Some Shop.demo_radio) ∅) = (Normal FAILURE_ack, f') /\
    paymentContext f' !! "providerCode" = Some (JStr "demo") /\
    paymentContext f' !! "pm_data" = None.
Proof.
  destruct (stale_selection_is_failure (Host := Shop.host)
              (Shop.started (Some Shop.demo_radio) ∅) Shop.wallet_success
              (JObj [("status", JStr "SUCCESS")]) (JStr "SUCCESS") Shop.demo_radio)
    as (f' & Hrun & Hpc & Hkeep & _); try reflexivity.
  exists f'. split; [exact Hrun|]. split.
  - rewrite Hpc. reflexivity.
  - rewrite (Hkeep "pm_data"); [reflexivity | cbn; tauto].
Defined.

(** The handler's promise helper never throws into its caller. *)
Lemma set_nn_payment_details_returns {Radio : Type}
    (response : jsval) (f : @Form Radio) :
  exists (p : promise) (f' : Form),
    set_nn_payment_details response f = (Normal p, f').
Proof.
  unfold set_nn_payment_details, async_call.
  destruct (set_nn_payment_details_body response f) as [[v|e] f']; eauto.
Qed.

(** C2, as the code has it.  For every response and every form:
    - when the widget reports FAILURE, the handler answers with the
      Failure pair and leaves the context exactly as it was;
    - when the widget does not report FAILURE and the checked radio belongs
      to another provider, the handler answers with the Failure pair, and
      the context has received that provider's code under [providerCode]
      and is otherwise as it was;
    - the handler answers with the Failure pair in these two cases only.
    In both cases the only call made is [_disableButton(false)]: no dialog
    is shown, and the pair handed back carries the fixed text ['Failure'],
    nothing taken from the widget's payload. *)
Theorem failure_leaves_context {Radio : Type} `{Host : HostForm Radio}
    (f : @Form Radio) (response : jsval) :
  (forall result status,
     get_prop response "result" = Normal result ->
     get_prop result "status" = Normal status ->
     strict_eq_str status "FAILURE" = true ->
     exists f' : @Form Radio,
       onProcessCompletion response f = (Normal FAILURE_ack, f') /\
       paymentContext f' = paymentContext f /\
       calls f' = calls f ++ [call_disableButton false]) /\
  (forall result status radio,
     get_prop response "result" = Normal result ->
     get_prop result "status" = Normal status ->
     strict_eq_str status "FAILURE" = false ->
     checkedRadio f = Some radio ->
     strict_eq_str (_getProviderCode radio) "novalnet" = false ->
     exists f' : @Form Radio,
       onProcessCompletion response f = (Normal FAILURE_ack, f') /\
       paymentContext f' =
         <["providerCode" := _getProviderCode radio]> (paymentContext f) /\
       (forall k, k <> "providerCode" ->
          paymentContext f' !! k = paymentContext f !! k) /\
       calls f' = calls f ++ [call_disableButton false]) /\
  (forall f' : @Form Radio,
     onProcessCompletion response f = (Normal FAILURE_ack, f') ->
     exists result status,
       get_prop response "result" = Normal result /\
       get_prop result "status" = Normal status /\
       (strict_eq_str status "FAILURE" = true \/
        (strict_eq_str status "FAILURE" = false /\
         exists radio,
           checkedRadio f = Some radio /\
           strict_eq_str (_getProviderCode radio) "novalnet" = false))).
Proof.
  split; [|split].
  - intros result status Hres Hst Hfail.
    unfold onProcessCompletion. run. rewrite Hres, Hst, Hfail. cbn.
    eexists. split; [reflexivity|]. cbn. auto.
  - intros result status radio Hres Hst Hfail Hradio Hprov.
    unfold onProcessCompletion. run. rewrite Hres, Hst, Hfail. cbn.
    rewrite Hradio. cbn. rewrite Hprov. cbn.
    eexists. split; [reflexivity|]. cbn. split; [reflexivity|].
    split; [|reflexivity].
    intros k Hk. now rewrite lookup_insert_ne.
  - intros f'. unfold onProcessCompletion. run.
    destruct (get_prop response "result") as [result|e] eqn:Hres; [|discriminate].
    destruct (get_prop result "status") as [status|e] eqn:Hst; [|discriminate].
    destruct (strict_eq_str status "FAILURE") eqn:Hfail; cbn.
    + intros _. exists result, status. auto.
    + destruct (checkedRadio f) as [radio|] eqn:Hradio; cbn; [|discriminate].
      destruct (strict_eq_str (_getProviderCode radio) "novalnet") eqn:Hprov; cbn.
      * match goal with
        | |- context [set_nn_payment_details response ?g] =>
            destruct (set_nn_payment_details_returns response g) as (p & g' & ->)
        end.
        cbn. destruct (nullish (tokenize_checkbox_checked radio)); run; discriminate.
      * intros _. exists result, status. split; [reflexivity|]. split; [exact Hst|].
        right. split; [exact Hfail|]. exists radio.
        split; [first [exact Hradio | reflexivity] | first [exact Hprov | reflexivity]].
Qed.

Lemma failure_leaves_context_witness :
  exists f' : @Form Shop.radio,
    onProcessCompletion (Host := Shop.host) Shop.wallet_failure
        (Shop.page (Some Shop.demo_radio) (<["providerCode" := JStr "novalnet"]> ∅))
      = (Normal FAILURE_ack, f') /\
    paymentContext f' = <["providerCode" := JStr "novalnet"]> ∅ /\
    calls f' = [call_disableButton false].
Proof.
  destruct (failure_leaves_context (Host := Shop.host)
              (Shop.page (Some Shop.demo_radio) (<["providerCode" := JStr "novalnet"]> ∅))
              Shop.wallet_failure) as (Hwidget & _ & _).
  destruct (Hwidget (JObj [("status", JStr "FAILURE");
                           ("message", JStr "Authentication failed")])
                    (JStr "FAILURE") eq_refl eq_refl eq_refl)
    as (f' & Hrun & Hpc & Hcalls).
  exists f'. auto.
Defined.

(** C2 as stated fails.  The widget reports success, the user has meanwhile
    checked another provider's radio: the handler answers Failure, yet the
    context is no longer what it was, no dialog has been shown, and the
    text handed back is not one the payload carries. *)
Lemma failure_leaves_context_counterexample :
  let f := Shop.started (Some Shop.demo_radio) ∅ in
  let r := onProcessCompletion (Host := Shop.host) Shop.wallet_success f in
  fst r = Normal FAILURE_ack /\
  paymentContext (snd r) <> paymentContext f /\
  paymentContext f !! "providerCode" = None /\
  paymentContext (snd r) !! "providerCode" = Some (JStr "demo") /\
  filter (fun c => is_dialog c) (calls (snd r)) = [].
Proof.
  cbv zeta. repeat split; try reflexivity.
  intros E. apply (f_equal (fun m => m !! "providerCode")) in E.
  vm_compute in E. discriminate.
Qed.

(** ** Recording a widget result *)

(** C3, as the code has it.  For a widget result that has payment details
    and booking details, [set_nn_payment_details] completes and stores the
    payment details under [pm_data], the booking details under
    [payment_details] and the payment details' [process_mode] under
    [flow].  The keys [wallet_token] and [card_details] are written exactly
    when the source value is truthy; otherwise the call writes nothing
    under them, no [null] and no empty placeholder, so that each keeps what
    the context held before (nothing, if it held nothing).  No other key
    changes and no collaborator is called. *)
Theorem record_copies_truthy_fields {Radio : Type}
    (f : @Form Radio) (response pd bd : jsval) :
  get_prop response "payment_details" = Normal pd -> nullish pd = false ->
  get_prop response "booking_details" = Normal bd -> nullish bd = false ->
  exists (f' : @Form Radio) (process_mode wallet_token card_details : jsval),
    set_nn_payment_details response f = (Normal (Fulfilled JUndefined), f') /\
    get_prop pd "process_mode" = Normal process_mode /\
    get_prop bd "wallet_token" = Normal wallet_token /\
    get_prop response "card_details" = Normal card_details /\
    paymentContext f' !! "pm_data" = Some pd /\
    paymentContext f' !! "payment_details" = Some bd /\
    paymentContext f' !! "flow" = Some process_mode /\
    paymentContext f' !! "wallet_token" =
      (if truthy wallet_token then Some wallet_token
       else paymentContext f !! "wallet_token") /\
    paymentContext f' !! "card_details" =
      (if truthy card_details then Some card_details
       else paymentContext f !! "card_details") /\
    (forall k,
       ~ In k ["pm_data"; "payment_details"; "flow"; "wallet_token"; "card_details"] ->
       paymentContext f' !! k = paymentContext f !! k) /\
    calls f' = calls f.
Proof.
  intros Hpd Npd Hbd Nbd.
  destruct (get_prop_Normal pd "process_mode" Npd) as [pm Hpm].
  destruct (get_prop_Normal bd "wallet_token" Nbd) as [wt Hwt].
  assert (exists cd, get_prop response "card_details" = Normal cd) as [cd Hcd].
  { destruct response; try discriminate; cbn; eauto. }
  unfold set_nn_payment_details, set_nn_payment_details_body. run.
  rewrite Hpd, Hbd. cbn. rewrite Hpm. cbn. rewrite Hwt. cbn.
  destruct (truthy wt) eqn:Twt; run; rewrite Hcd; cbn;
    destruct (truthy cd) eqn:Tcd; run;
    (eexists; exists pm, wt, cd; split; [reflexivity|]);
    cbn; rewrite ?Twt, ?Tcd;
    (repeat split; try (simplify_map_eq; reflexivity));
    intros k Hk; cbn in Hk;
    rewrite ?lookup_insert_ne by (intros <-; tauto); reflexivity.
Qed.

Lemma record_copies_truthy_fields_witness :
  exists f' : Form,
    set_nn_payment_details Shop.wallet_success
        (Shop.page (Some Shop.novalnet_radio) ∅)
      = (Normal (Fulfilled JUndefined), f') /\
    paymentContext f' !! "wallet_token" = Some (JStr "tok_9f2") /\
    paymentContext f' !! "card_details" = None.
Proof.
  destruct (record_copies_truthy_fields
              (Shop.page (Some Shop.novalnet_radio) ∅) Shop.wallet_success
              Shop.wallet_payment_details (JObj [("wallet_token", JStr "tok_9f2")])
              eq_refl eq_refl eq_refl eq_refl)
    as (f' & pm & wt & cd & Hrun & _ & Hwt & Hcd & _ & _ & _ & Hw & Hc & _).
  exists f'. split; [exact Hrun|].
  injection Hwt as <-. injection Hcd as <-. auto.
Defined.

(** C3 as stated fails.  The context still holds the card details of an
    earlier attempt; the result now recorded has a [wallet_token] field,
    the empty string, and has no [card_details] field.  After the call the
    context has no [wallet_token] key although the source field is there,
    and it has a [card_details] key although the source has none. *)
Lemma record_presence_counterexample :
  let f := Shop.page (Some Shop.novalnet_radio)
             (<["card_details" := JObj [("card_brand", JStr "visa")]]> ∅) in
  let r := set_nn_payment_details Shop.empty_wallet_token f in
  fst r = Normal (Fulfilled JUndefined) /\
  (exists bd, get_prop Shop.empty_wallet_token "booking_details" = Normal bd /\
              has_prop bd "wallet_token" = true) /\
  paymentContext (snd r) !! "wallet_token" = None /\
  has_prop Shop.empty_wallet_token "card_details" = false /\
  paymentContext (snd r) !! "card_details" = Some (JObj [("card_brand", JStr "visa")]).
Proof.
  cbv zeta. repeat split; try reflexivity.
  eexists. split; reflexivity.
Qed.

(** ** Submitting *)

(** C4. When the checked radio belongs to another provider, [_submitForm]
    stops the event, disables the button and hands over to the generic
    handler, whose result it returns; it makes no call on the widget and
    no remote call. *)
Theorem other_provider_submit_delegates {Radio : Type} `{Host : HostForm Radio}
    (f : @Form Radio) (radio : Radio) :
  checkedRadio f = Some radio ->
  strict_eq_str (_getProviderCode radio) "novalnet" = false ->
  exists f' : @Form Radio,
    _submitForm f = (Normal delegated_to_super, f') /\
    calls f' = calls f ++ [ev_stopPropagation; ev_preventDefault;
                           call_disableButton true; super_submitForm] /\
    filter (fun c => is_widget_call c) (calls f') =
      filter (fun c => is_widget_call c) (calls f) /\
    filter (fun c => is_remote_call c) (calls f') =
      filter (fun c => is_remote_call c) (calls f).
Proof.
  intros Hradio Hprov.
  unfold _submitForm. run. cbn. rewrite Hradio. cbn. rewrite Hprov. cbn.
  eexists. split; [reflexivity|]. cbn.
  rewrite <- !app_assoc. cbn.
  split; [reflexivity|].
  rewrite !filter_app. cbn. now rewrite !app_nil_r.
Qed.

Lemma other_provider_submit_delegates_witness :
  exists f' : @Form Shop.radio,
    _submitForm (Host := Shop.host) (Shop.started (Some Shop.demo_radio) ∅)
      = (Normal delegated_to_super, f') /\
    filter (fun c => is_widget_call c) (calls f') =
      filter (fun c => is_widget_call c) (calls (Shop.started (Some Shop.demo_radio) ∅)).
Proof.
  destruct (other_provider_submit_delegates (Host := Shop.host)
              (Shop.started (Some Shop.demo_radio) ∅) Shop.demo_radio
              eq_refl eq_refl)
    as (f' & Hrun & _ & Hw & _).
  exists f'. split; assumption.
Defined.

(** C5, as the code has it.  When the widget answers [getPayment] with a
    numeric status code other than 100, the callback shows one dialog
    whose text is [_t] applied to the widget's message, the message itself
    wherever [_t] leaves it as it is, then enables the submit button; it
    makes no other call, so no remote call and no payment flow, and it
    leaves the context as it was. *)
Theorem widget_rejection_shows_translated_message {Radio : Type}
    `{Host : HostForm Radio} (f : @Form Radio)
    (providerCode paymentOptionId pmCode data result message : jsval) (code : Z) :
  get_prop data "result" = Normal result ->
  get_prop result "statusCode" = Normal (JNum code) ->
  code <> 100%Z ->
  get_prop result "message" = Normal message ->
  exists f' : @Form Radio,
    getPayment_callback providerCode paymentOptionId pmCode data f = (Normal tt, f') /\
    calls f' = calls f ++ [call_displayErrorDialog [_t message]; call_enableButton] /\
    (_t message = message ->
       calls f' = calls f ++ [call_displayErrorDialog [message]; call_enableButton]) /\
    buttonDisabled f' = false /\
    paymentContext f' = paymentContext f.
Proof.
  intros Hres Hcode Hne Hmsg.
  assert (truthy result = true) as Htr.
  { destruct result; cbn in Hcode; try discriminate; reflexivity. }
  unfold getPayment_callback, getPayment_accepted, getPayment_reject. run.
  rewrite Hres. cbn. rewrite Htr, Hcode. cbn.
  apply Z.eqb_neq in Hne. rewrite Hne. cbn. rewrite ?Hres. cbn. rewrite Hmsg. cbn.
  eexists. split; [reflexivity|]. cbn.
  rewrite <- !app_assoc. cbn.
  repeat split. intros ->. reflexivity.
Qed.

Lemma widget_rejection_shows_translated_message_witness :
  exists f' : @Form Shop.radio,
    getPayment_callback (Host := Shop.host) (JStr "novalnet") (JNum 7) (JStr "novalnet")
        Shop.card_declined (Shop.started (Some Shop.novalnet_radio) ∅) = (Normal tt, f') /\
    buttonDisabled f' = false.
Proof.
  destruct (widget_rejection_shows_translated_message (Host := Shop.host)
              (Shop.started (Some Shop.novalnet_radio) ∅)
              (JStr "novalnet") (JNum 7) (JStr "novalnet") Shop.card_declined
              (JObj [("statusCode", JNum 150); ("message", JStr "Card declined")])
              (JStr "Card declined") 150 eq_refl eq_refl ltac:(discriminate) eq_refl)
    as (f' & Hrun & _ & _ & Hb & _).
  exists f'. split; assumption.
Defined.

(** C5 as stated fails.  On a page whose catalogue translates the term,
    the widget's message is "Card declined" and the dialog does not show
    that text. *)
Lemma widget_rejection_message_counterexample :
  let f := Shop.started (Some Shop.novalnet_radio) ∅ in
  let r := getPayment_callback (Host := Shop.host_with Shop.german)
             (JStr "novalnet") (JNum 7) (JStr "novalnet") Shop.card_declined f in
  (exists result, get_prop Shop.card_declined "result" = Normal result /\
                  get_prop result "statusCode" = Normal (JNum 150) /\
                  get_prop result "message" = Normal (JStr "Card declined")) /\
  fst r = Normal tt /\
  filter (fun c => is_dialog c) (calls (snd r)) =
    [call_displayErrorDialog [JStr "Karte abgelehnt"]] /\
  ~ In (call_displayErrorDialog [JStr "Card declined"]) (calls (snd r)).
Proof.
  cbv zeta. split; [eexists; repeat split; reflexivity|].
  split; [reflexivity|]. split; [reflexivity|].
  vm_compute. intuition discriminate.
Qed.

(** ** Finalizing *)

(** The remote call is made first, with the reference and the provider's
    transaction id of the processing values; the promise handed to the
    caller of the [async] method is then already fulfilled. *)
Lemma finalize_issues_remote_call {Radio : Type} `{Host : HostForm Radio}
    (f : @Form Radio) (this : Receiver) (fields : list (string * jsval))
    (reply : RpcReply) :
  exists (chain : promise) (rest : list Call) (f' : @Form Radio),
    processNovalnetPayment this (JObj fields) reply f
      = (Normal (Fulfilled JUndefined, Some chain), f') /\
    calls f' = calls f ++
      call_jsonrpc simulate_payment_route
        [("reference", lookup_field "reference" fields);
         ("nn_tid", lookup_field "nn_tid" fields)] :: rest.
Proof.
  unfold processNovalnetPayment. run.
  destruct reply as [|error].
  - unfold then_callback. run. do 3 eexists. split; [reflexivity|].
    cbn. rewrite <- app_assoc. reflexivity.
  - unfold catch_callback. run.
    destruct (instanceof_RPCError error);
      [ destruct (get_prop (error_data error) "message");
        [ destruct (has_displayErrorDialog this), (has_enableButton this) | ] | ];
      cbn; do 3 eexists; (split; [reflexivity|]); cbn;
      rewrite <- ?app_assoc; cbn; reflexivity.
Qed.

(** When the remote call succeeds the browser is sent to the status page. *)
Lemma finalize_success_navigates {Radio : Type} `{Host : HostForm Radio}
    (f : @Form Radio) (this : Receiver) (fields : list (string * jsval)) :
  exists f' : @Form Radio,
    processNovalnetPayment this (JObj fields) rpc_resolved f
      = (Normal (Fulfilled JUndefined, Some (Fulfilled JUndefined)), f') /\
    calls f' = calls f ++
      [call_jsonrpc simulate_payment_route
         [("reference", lookup_field "reference" fields);
          ("nn_tid", lookup_field "nn_tid" fields)];
       set_window_location "/payment/status"] /\
    buttonDisabled f' = buttonDisabled f.
Proof.
  unfold processNovalnetPayment, then_callback. run.
  eexists. split; [reflexivity|]. cbn. rewrite <- app_assoc. now cbn.
Qed.

(** On a receiver that has [_displayErrorDialog], a classified error ends
    in a dialog carrying the server's message, and the button is enabled
    exactly when the receiver has [_enableButton]. *)
Lemma finalize_classified_error_on_form {Radio : Type} `{Host : HostForm Radio}
    (f : @Form Radio) (enable : bool) (fields : list (string * jsval))
    (data message : jsval) :
  get_prop data "message" = Normal message ->
  exists f' : @Form Radio,
    processNovalnetPayment (mkReceiver true enable) (JObj fields)
        (rpc_rejected (RPCError data)) f
      = (Normal (Fulfilled JUndefined, Some (Fulfilled JUndefined)), f') /\
    calls f' = calls f ++
      [call_jsonrpc simulate_payment_route
         [("reference", lookup_field "reference" fields);
          ("nn_tid", lookup_field "nn_tid" fields)];
       call_displayErrorDialog [_t (JStr "Payment processing failed"); message]]
      ++ (if enable then [call_enableButton] else []) /\
    buttonDisabled f' = (if enable then false else buttonDisabled f).
Proof.
  intros Hmsg.
  unfold processNovalnetPayment, catch_callback. run. cbn. rewrite Hmsg. cbn.
  destruct enable; cbn; eexists; (split; [reflexivity|]); cbn;
    rewrite <- !app_assoc; now cbn.
Qed.

(** Any other error leaves the chain rejected with that same error; the
    handler shows nothing and enables nothing. *)
Lemma finalize_unexpected_error_rejects {Radio : Type} `{Host : HostForm Radio}
    (f : @Form Radio) (this : Receiver) (fields : list (string * jsval))
    (error : jserror) :
  instanceof_RPCError error = false ->
  exists f' : @Form Radio,
    processNovalnetPayment this (JObj fields) (rpc_rejected error) f
      = (Normal (Fulfilled JUndefined, Some (Rejected error)), f') /\
    calls f' = calls f ++
      [call_jsonrpc simulate_payment_route
         [("reference", lookup_field "reference" fields);
          ("nn_tid", lookup_field "nn_tid" fields)]] /\
    buttonDisabled f' = buttonDisabled f.
Proof.
  intros Hcls.
  unfold processNovalnetPayment, catch_callback. run. rewrite Hcls. cbn.
  eexists. split; [reflexivity|]. now cbn.
Qed.

(** C6, where the code departs from it.  [_processDirectFlow] calls the
    method on the mixin object, so inside the [catch] handler [this] has
    neither [_displayErrorDialog] nor [_enableButton]: on a classified
    remote error the handler throws a [TypeError], the chain ends
    rejected with it, and after the remote call nothing is shown and the
    button is not touched. *)
Theorem classified_error_on_mixin_receiver {Radio : Type} `{Host : HostForm Radio}
    (f : @Form Radio) (paymentOptionId pmCode data : jsval)
    (fields : list (string * jsval)) :
  exists f' : @Form Radio,
    _processDirectFlow (JStr "novalnet") paymentOptionId pmCode (JObj fields)
        (rpc_rejected (RPCError data)) f
      = (Normal (Some (Fulfilled JUndefined, Some (Rejected TypeError))), f') /\
    calls f' = calls f ++
      [call_jsonrpc simulate_payment_route
         [("reference", lookup_field "reference" fields);
          ("nn_tid", lookup_field "nn_tid" fields)]] /\
    filter (fun c => is_dialog c) (calls f') = filter (fun c => is_dialog c) (calls f) /\
    buttonDisabled f' = buttonDisabled f.
Proof.
  unfold _processDirectFlow, processNovalnetPayment, catch_callback. run. cbn.
  destruct (get_prop data "message") as [message|e] eqn:Hmsg; cbn.
  - eexists. split; [reflexivity|]. cbn. split; [reflexivity|].
    rewrite filter_app. cbn. now rewrite app_nil_r.
  - assert (e = TypeError) as ->.
    { destruct data; cbn in Hmsg; congruence. }
    eexists. split; [reflexivity|]. cbn. split; [reflexivity|].
    rewrite filter_app. cbn. now rewrite app_nil_r.
Qed.

(** ** Starting the form *)

Lemma alter_last {A : Type} (g : A -> A) (l : list A) (x : A) :
  alter g (length l) (l ++ [x]) = l ++ [g x].
Proof. induction l as [|a l IH]; cbn; [reflexivity | now rewrite IH]. Qed.

(** What one run of [start] does to a form. *)
Lemma start_spec {Radio : Type} (f : @Form Radio) :
  let w := length (widgets f) in
  start f =
  (Normal tt,
   mkForm (paymentContext f) (checkedRadio f) (novalnet_radio_input f) (novalnet_radio_checked f)
          (payButton f) (buttonDisabled f) (uiBlocked f) (pathname f)
          (Some w) (widgets f ++ [mkWidget 1 1])
          (window_change f ++ [window_change_listener])
          (provider_click f ++ [provider_click_listener])
          (calls f ++ [super_start; widget_new w;
                       widget_initiate w paymentFormRequestObj;
                       jq_css_padding_0; jq_on_window_change;
                       widget_selectedPayment w; jq_on_provider_click;
                       widget_walletResponse w])).
Proof.
  cbv zeta. unfold start, new_NovalnetPaymentForm, widget_register,
    jq_on_change, jq_on_click. run. cbn.
  rewrite alter_last. cbn. rewrite alter_last. cbn.
  rewrite <- !app_assoc. reflexivity.
Qed.




(** ** The submit button across an attempt *)

(** Recording a widget result touches the context and nothing else, also
    when it stops half way. *)
Lemma set_nn_payment_details_frame {Radio : Type} (response : jsval)
    (f : @Form Radio) :
  exists pc : gmap string jsval,
    snd (set_nn_payment_details response f) = with_paymentContext pc f.
Proof.
  assert (f = with_paymentContext (paymentContext f) f) as Hf by now destruct f.
  unfold set_nn_payment_details, set_nn_payment_details_body. run.
  destruct (get_prop response "payment_details") as [pd|]; cbn; [|eauto].
  destruct (get_prop response "booking_details") as [bd|]; cbn; [|eauto].
  destruct (get_prop pd "process_mode") as [pm|]; cbn; [|eauto].
  destruct (get_prop bd "wallet_token") as [wt|]; cbn; [|eauto].
  destruct (truthy wt); run;
    (destruct (get_prop response "card_details") as [cd|]; cbn; [|eauto]);
    destruct (truthy cd); run; eauto.
Qed.

(** [_submitForm] leaves the button disabled however it ends. *)
Lemma submit_disables_button {Radio : Type} `{Host : HostForm Radio}
    (f : @Form Radio) :
  buttonDisabled (snd (_submitForm f)) = true.
Proof.
  unfold _submitForm, tokenizationRequested_of. run. cbn.
  destruct (checkedRadio f) as [radio|]; cbn; [|reflexivity].
  destruct (strict_eq_str (_getProviderCode radio) "novalnet"); cbn; [|reflexivity].
  destruct (strict_eq_str _ "token" && truthy _); cbn; [reflexivity|].
  destruct (strict_eq_str (_getPaymentOptionType radio) "token"); run; cbn;
    destruct (nullish (tokenize_checkbox_checked radio)); run; cbn;
    destruct (novalnetPaymentIframe f); reflexivity.
Qed.

(** The wallet completion handler leaves the button disabled however it
    ends: it begins with [_disableButton(false)] and never enables. *)
Lemma completion_leaves_button_disabled {Radio : Type} `{Host : HostForm Radio}
    (response : jsval) (f : @Form Radio) :
  buttonDisabled (snd (onProcessCompletion response f)) = true /\
  filter (fun c => is_enableButton c) (calls (snd (onProcessCompletion response f)))
    = filter (fun c => is_enableButton c) (calls f).
Proof.
  unfold onProcessCompletion, tokenizationRequested_of. run.
  assert (forall cs : list Call,
            filter (fun c => is_enableButton c) (calls f ++ call_disableButton false :: cs)
            = filter (fun c => is_enableButton c) (calls f ++ cs)) as Hflt.
  { intros cs. now rewrite !filter_app. }
  destruct (get_prop response "result") as [result|]; cbn;
    [|split; [reflexivity | now rewrite (Hflt []), app_nil_r]].
  destruct (get_prop result "status") as [status|]; cbn;
    [|split; [reflexivity | now rewrite (Hflt []), app_nil_r]].
  destruct (strict_eq_str status "FAILURE"); cbn;
    [split; [reflexivity | now rewrite (Hflt []), app_nil_r]|].
  destruct (checkedRadio f) as [radio|]; cbn;
    [|split; [reflexivity | now rewrite (Hflt []), app_nil_r]].
  destruct (strict_eq_str (_getProviderCode radio) "novalnet"); cbn;
    [|split; [reflexivity | now rewrite (Hflt []), app_nil_r]].
  match goal with
  | |- context [set_nn_payment_details response ?g] =>
      destruct (set_nn_payment_details_frame response g) as [pc Hpc];
      destruct (set_nn_payment_details_returns response g) as (p & g' & Hrun);
      rewrite Hrun in *; cbn in Hpc; subst g'
  end.
  cbn. destruct (nullish (tokenize_checkbox_checked radio)); run; cbn;
    (split; [reflexivity|]);
    rewrite <- app_assoc; cbn; rewrite Hflt, filter_app; cbn; now rewrite app_nil_r.
Qed.

(** [_processDirectFlow] never reaches [_enableButton], whatever the reply. *)
Lemma processDirectFlow_never_enables {Radio : Type} `{Host : HostForm Radio}
    (providerCode paymentOptionId pmCode processingValues : jsval)
    (reply : RpcReply) (f : @Form Radio) :
  let f' := snd (_processDirectFlow providerCode paymentOptionId pmCode
                   processingValues reply f) in
  buttonDisabled f' = buttonDisabled f /\
  filter (fun c => is_enableButton c) (calls f')
    = filter (fun c => is_enableButton c) (calls f).
Proof.
  cbv zeta.
  unfold _processDirectFlow, processNovalnetPayment, catch_callback, then_callback.
  run.
  destruct (strict_eq_str providerCode "novalnet"); cbn;
    [|split; [reflexivity | rewrite filter_app; cbn; now rewrite app_nil_r]].
  destruct (get_prop processingValues "reference"); cbn; [|split; reflexivity].
  destruct (get_prop processingValues "nn_tid"); cbn; [|split; reflexivity].
  destruct reply as [|error]; cbn.
  - split; [reflexivity|]. rewrite !filter_app. cbn. now rewrite !app_nil_r.
  - destruct (instanceof_RPCError error); cbn;
      [destruct (get_prop (error_data error) "message"); cbn|];
      (split; [reflexivity | rewrite filter_app; cbn; now rewrite app_nil_r]).
Qed.

(** C8, where the code departs from it.  A submit with this provider's
    radio checked, an accepted widget answer, and a classified error from
    the remote call: the button was disabled at the start of the attempt
    and is still disabled at its end, [_enableButton] was never called and
    no dialog was shown. *)
Theorem button_stays_disabled_after_classified_error :
  let f := Shop.started (Some Shop.novalnet_radio) ∅ in
  let r := checkout_attempt (Host := Shop.host) Shop.payment_accepted
             Shop.processing_values (rpc_rejected Shop.reference_expired) f in
  buttonDisabled f = false /\
  fst r = Normal tt /\
  buttonDisabled (snd r) = true /\
  filter (fun c => is_enableButton c) (calls (snd r)) = [] /\
  filter (fun c => is_dialog c) (calls (snd r)) = [] /\
  filter (fun c => is_remote_call c) (calls (snd r)) =
    [call_jsonrpc "/payment/novalnet/simulate_payment"
       [("reference", JStr "S00042-1"); ("nn_tid", JStr "15086600037449272")]].
Proof. cbv zeta. repeat split; reflexivity. Qed.

(** ** The outgoing payload *)

(** C9. While the context's provider code is ['novalnet'], the object
    returned by [_prepareTransactionRouteParams] has the keys [pay_data]
    and [pm_data], holding what the context has under [payment_details]
    and [pm_data]; when nothing has been recorded the keys are there all
    the same, with value [undefined]; every other key is as the generic
    handler gave it.  With any other provider code the generic result is
    returned as it is.  The form itself is not changed. *)
Theorem route_params_carry_both_keys {Radio : Type} (f : @Form Radio)
    (transactionRouteParams : gmap string jsval) :
  exists res : gmap string jsval,
    _prepareTransactionRouteParams transactionRouteParams f = (Normal res, f) /\
    (ctx_read (paymentContext f) "providerCode" = JStr "novalnet" ->
       res !! "pay_data" = Some (ctx_read (paymentContext f) "payment_details") /\
       res !! "pm_data" = Some (ctx_read (paymentContext f) "pm_data") /\
       (paymentContext f !! "payment_details" = None ->
          res !! "pay_data" = Some JUndefined) /\
       (paymentContext f !! "pm_data" = None -> res !! "pm_data" = Some JUndefined) /\
       (forall k, k <> "pay_data" -> k <> "pm_data" ->
          res !! k = transactionRouteParams !! k)) /\
    (strict_eq_str (ctx_read (paymentContext f) "providerCode") "novalnet" = false ->
       res = transactionRouteParams).
Proof.
  unfold _prepareTransactionRouteParams. run.
  destruct (strict_eq_str (ctx_read (paymentContext f) "providerCode") "novalnet")
    eqn:Hprov; cbn.
  - eexists. split; [reflexivity|]. split; [|discriminate].
    intros _.
    assert (forall (a b : jsval) (k : string),
              ((<["pm_data" := b]> (<["pay_data" := a]> ∅) : gmap string jsval)
                 ∪ transactionRouteParams) !! k
              = if String.eqb k "pm_data" then Some b
                else if String.eqb k "pay_data" then Some a
                else transactionRouteParams !! k) as Hlook.
    { intros a b k. rewrite lookup_union.
      destruct (String.eqb_spec k "pm_data") as [->|N1].
      - rewrite lookup_insert_eq. now destruct (transactionRouteParams !! "pm_data").
      - rewrite lookup_insert_ne by congruence.
        destruct (String.eqb_spec k "pay_data") as [->|N2].
        + rewrite lookup_insert_eq. now destruct (transactionRouteParams !! "pay_data").
        + rewrite lookup_insert_ne by congruence. rewrite lookup_empty.
          now destruct (transactionRouteParams !! k). }
    rewrite !Hlook. cbn. repeat split.
    + intros H. unfold ctx_read. now rewrite H.
    + intros H. unfold ctx_read. now rewrite H.
    + intros k N1 N2. rewrite Hlook.
      destruct (String.eqb_spec k "pm_data"); [congruence|].
      destruct (String.eqb_spec k "pay_data"); [congruence|]. reflexivity.
  - eexists. split; [reflexivity|]. split; [|reflexivity].
    intros E. rewrite E in Hprov. discriminate.
Qed.

Lemma route_params_carry_both_keys_witness :
  exists res : gmap string jsval,
    _prepareTransactionRouteParams (<["provider_id" := JNum 3]> ∅)
        (Shop.page (Some Shop.novalnet_radio) (<["providerCode" := JStr "novalnet"]> ∅))
      = (Normal res,
         Shop.page (Some Shop.novalnet_radio) (<["providerCode" := JStr "novalnet"]> ∅)) /\
    res !! "pay_data" = Some JUndefined /\
    res !! "pm_data" = Some JUndefined /\
    res !! "provider_id" = Some (JNum 3).
Proof.
  destruct (route_params_carry_both_keys
              (Shop.page (Some Shop.novalnet_radio) (<["providerCode" := JStr "novalnet"]> ∅))
              (<["provider_id" := JNum 3]> ∅))
    as (res & Hrun & Hnn & _).
  destruct (Hnn eq_refl) as (_ & _ & Hpay & Hpm & Hother).
  exists res. split; [exact Hrun|].
  split; [apply Hpay; reflexivity|].
  split; [apply Hpm; reflexivity|].
  rewrite Hother by discriminate. reflexivity.
Defined.

(** ** The answer to [getPayment] *)

Lemma loose_eq_100_num {Radio : Type} `{Host : HostForm Radio} (n : Z) :
  loose_eq_100 (JNum n) = Z.eqb n 100.
Proof. reflexivity. Qed.

(** C10. For an answer [data] of the widget: an answer whose [result] is
    falsy, or whose status code is not 100, goes to the rejection branch;
    that branch reads [data.result.message] whatever [result] is, so an
    answer without [result] makes the handler throw a [TypeError] before
    any dialog is shown or any other call is made; the handler therefore
    completes only if [result] is there, and it does complete whenever
    [result] is an object. *)
Theorem getPayment_handler_needs_result {Radio : Type} `{Host : HostForm Radio}
    (f : @Form Radio) (providerCode paymentOptionId pmCode data result : jsval) :
  get_prop data "result" = Normal result ->
  (truthy result = false ->
     getPayment_callback providerCode paymentOptionId pmCode data f
       = getPayment_reject data f) /\
  (forall statusCode,
     get_prop result "statusCode" = Normal statusCode ->
     loose_eq_100 statusCode = false ->
     getPayment_callback providerCode paymentOptionId pmCode data f
       = getPayment_reject data f) /\
  (forall n : Z,
     get_prop result "statusCode" = Normal (JNum n) -> n <> 100%Z ->
     getPayment_callback providerCode paymentOptionId pmCode data f
       = getPayment_reject data f) /\
  (nullish result = true ->
     getPayment_callback providerCode paymentOptionId pmCode data f
       = (Abrupt TypeError, f)) /\
  (forall f' : @Form Radio,
     getPayment_callback providerCode paymentOptionId pmCode data f = (Normal tt, f') ->
     nullish result = false) /\
  (forall fields, result = JObj fields ->
     exists f' : @Form Radio,
       getPayment_callback providerCode paymentOptionId pmCode data f = (Normal tt, f')).
Proof.
  intros Hres.
  assert (forall statusCode,
     get_prop result "statusCode" = Normal statusCode ->
     loose_eq_100 statusCode = false ->
     getPayment_callback providerCode paymentOptionId pmCode data f
       = getPayment_reject data f) as Hcode.
  { intros sc Hsc Hne. unfold getPayment_callback, getPayment_accepted. run.
    rewrite Hres. cbn. rewrite Hsc. cbn. rewrite Hne.
    now destruct (truthy result). }
  assert (nullish result = true ->
     getPayment_callback providerCode paymentOptionId pmCode data f
       = (Abrupt TypeError, f)) as Hnull.
  { intros Hn. unfold getPayment_callback, getPayment_accepted, getPayment_reject. run.
    rewrite Hres. cbn. destruct result; try discriminate; reflexivity. }
  split; [|split; [exact Hcode|split; [|split; [exact Hnull|split]]]].
  - intros Hf. unfold getPayment_callback, getPayment_accepted. run.
    rewrite Hres. cbn. now rewrite Hf.
  - intros n Hsc Hne. apply (Hcode _ Hsc). cbn. now apply Z.eqb_neq.
  - intros f' Hrun. destruct (nullish result) eqn:Hn; [|reflexivity].
    rewrite (Hnull eq_refl) in Hrun. discriminate.
  - intros fields ->.
    unfold getPayment_callback, getPayment_accepted, getPayment_accept, getPayment_reject.
    run. rewrite Hres. cbn.
    destruct (loose_eq_100 (lookup_field "statusCode" fields)); cbn.
    + destruct (set_nn_payment_details_returns data f) as (p & g & ->). cbn.
      destruct (includes "/donation" (pathname g)); unfold ui_unblock; run; eauto.
    + eauto.
Qed.

Lemma getPayment_handler_needs_result_witness :
  getPayment_callback (Host := Shop.host) (JStr "novalnet") (JNum 7) (JStr "novalnet")
      Shop.no_result (Shop.started (Some Shop.novalnet_radio) ∅)
    = (Abrupt TypeError, Shop.started (Some Shop.novalnet_radio) ∅).
Proof.
  destruct (getPayment_handler_needs_result (Host := Shop.host)
              (Shop.started (Some Shop.novalnet_radio) ∅)
              (JStr "novalnet") (JNum 7) (JStr "novalnet") Shop.no_result JUndefined
              eq_refl)
    as (_ & _ & _ & Hthrow & _).
  exact (Hthrow eq_refl).
Defined.

(** * Further properties of the plugin's methods *)

(** ** Recording, once more *)

Lemma with_paymentContext_twice {Radio : Type} (a b : gmap string jsval)
    (f : @Form Radio) :
  with_paymentContext a (with_paymentContext b f) = with_paymentContext a f.
Proof. reflexivity. Qed.

(** The form after a recording that runs to its end. *)
Lemma set_nn_payment_details_ok {Radio : Type} (f : @Form Radio)
    (response pd bd pm wt cd : jsval) :
  get_prop response "payment_details" = Normal pd ->
  get_prop response "booking_details" = Normal bd ->
  get_prop pd "process_mode" = Normal pm ->
  get_prop bd "wallet_token" = Normal wt ->
  get_prop response "card_details" = Normal cd ->
  set_nn_payment_details response f =
  (Normal (Fulfilled JUndefined),
   with_paymentContext
     (let pc3 := <["flow" := pm]> (<["payment_details" := bd]>
                   (<["pm_data" := pd]> (paymentContext f))) in
      let pc4 := if truthy wt then <["wallet_token" := wt]> pc3 else pc3 in
      if truthy cd then <["card_details" := cd]> pc4 else pc4) f).
Proof.
  intros Hpd Hbd Hpm Hwt Hcd.
  unfold set_nn_payment_details, set_nn_payment_details_body. run.
  rewrite Hpd, Hbd. cbn. rewrite Hpm. cbn. rewrite Hwt. cbn.
  destruct (truthy wt); run; rewrite Hcd; cbn; destruct (truthy cd); run; reflexivity.
Qed.

(** X1. A result without payment details is recorded half way: the
    promise of [set_nn_payment_details] is rejected with a [TypeError]
    after [pm_data] and [payment_details] have been overwritten, and
    [flow], [wallet_token] and [card_details] are left as they were. *)
Theorem record_without_payment_details {Radio : Type} (f : @Form Radio)
    (response pd bd : jsval) :
  get_prop response "payment_details" = Normal pd ->
  nullish pd = true ->
  get_prop response "booking_details" = Normal bd ->
  exists f' : @Form Radio,
    set_nn_payment_details response f = (Normal (Rejected TypeError), f') /\
    paymentContext f' = <["payment_details" := bd]> (<["pm_data" := pd]> (paymentContext f)) /\
    (forall k, k <> "pm_data" -> k <> "payment_details" ->
       paymentContext f' !! k = paymentContext f !! k) /\
    calls f' = calls f.
Proof.
  intros Hpd Npd Hbd.
  unfold set_nn_payment_details, set_nn_payment_details_body. run.
  rewrite Hpd, Hbd. cbn.
  assert (get_prop pd "process_mode" = Abrupt TypeError) as ->
    by (destruct pd; try discriminate; reflexivity).
  cbn. eexists. split; [reflexivity|]. cbn. split; [reflexivity|]. split; [|reflexivity].
  intros k N1 N2. now rewrite !lookup_insert_ne by congruence.
Qed.

Lemma record_without_payment_details_witness :
  exists f' : @Form Shop.radio,
    set_nn_payment_details (JObj [("booking_details", JObj [("test_mode", JNum 1)])])
        (Shop.page None (<["flow" := JStr "redirect"]> ∅))
      = (Normal (Rejected TypeError), f') /\
    paymentContext f' !! "flow" = Some (JStr "redirect") /\
    paymentContext f' !! "pm_data" = Some JUndefined.
Proof.
  destruct (record_without_payment_details
              (Shop.page None (<["flow" := JStr "redirect"]> ∅))
              (JObj [("booking_details", JObj [("test_mode", JNum 1)])])
              JUndefined (JObj [("test_mode", JNum 1)]) eq_refl eq_refl eq_refl)
    as (f' & Hrun & Hpc & Hkeep & _).
  exists f'. split; [exact Hrun|]. split.
  - rewrite Hkeep by discriminate. reflexivity.
  - rewrite Hpc. reflexivity.
Defined.

(** Equality of two maps built by inserting under the keys that a
    recording writes: key by key. *)
Ltac at_key k key :=
  destruct (decide (k = key)) as [->|];
  [ repeat first [ rewrite lookup_insert_eq
                 | rewrite lookup_insert_ne by discriminate ];
    reflexivity | ].

Ltac insert_eq :=
  apply map_eq; intros ?k;
  match goal with
  | k : string |- _ =>
      at_key k "pm_data"; at_key k "payment_details"; at_key k "flow";
      at_key k "wallet_token"; at_key k "card_details";
      rewrite !lookup_insert_ne by congruence; reflexivity
  end.

(** What a recording writes depends on the result alone, and writing it
    twice is writing it once. *)
Lemma set_nn_payment_details_writes {Radio : Type} (response : jsval) :
  exists (p : promise) (w : gmap string jsval -> gmap string jsval),
    (forall g : @Form Radio,
       set_nn_payment_details response g
       = (Normal p, with_paymentContext (w (paymentContext g)) g)) /\
    (forall m, w (w m) = w m).
Proof.
  unfold set_nn_payment_details, set_nn_payment_details_body. run.
  destruct (get_prop response "payment_details") as [pd|]; cbn.
  2:{ exists (Rejected e), (fun m => m). split; [intros g; now destruct g | reflexivity]. }
  destruct (get_prop response "booking_details") as [bd|]; cbn.
  2:{ exists (Rejected e), (fun m => <["pm_data" := pd]> m).
      split; [intros g; reflexivity | intros m; insert_eq]. }
  destruct (get_prop pd "process_mode") as [pm|]; cbn.
  2:{ exists (Rejected e), (fun m => <["payment_details" := bd]> (<["pm_data" := pd]> m)).
      split; [intros g; reflexivity | intros m; insert_eq]. }
  destruct (get_prop bd "wallet_token") as [wt|]; cbn.
  2:{ exists (Rejected e),
        (fun m => <["flow" := pm]> (<["payment_details" := bd]> (<["pm_data" := pd]> m))).
      split; [intros g; reflexivity | intros m; insert_eq]. }
  destruct (get_prop response "card_details") as [cd|]; cbn.
  - exists (Fulfilled JUndefined),
      (fun m =>
         let pc3 := <["flow" := pm]> (<["payment_details" := bd]> (<["pm_data" := pd]> m)) in
         let pc4 := if truthy wt then <["wallet_token" := wt]> pc3 else pc3 in
         if truthy cd then <["card_details" := cd]> pc4 else pc4).
    split.
    + intros g. destruct (truthy wt); run; destruct (truthy cd); run; reflexivity.
    + intros m. cbv zeta. destruct (truthy wt), (truthy cd); insert_eq.
  - exists (Rejected e),
      (fun m =>
         let pc3 := <["flow" := pm]> (<["payment_details" := bd]> (<["pm_data" := pd]> m)) in
         if truthy wt then <["wallet_token" := wt]> pc3 else pc3).
    split.
    + intros g. destruct (truthy wt); run; reflexivity.
    + intros m. cbv zeta. destruct (truthy wt); insert_eq.
Qed.

(** X2. Recording is idempotent: recording the same widget result a
    second time returns the same promise and leaves the form exactly as
    the first recording left it, also when the recording stops half way. *)
Theorem record_twice_is_once {Radio : Type} (response : jsval) (f : @Form Radio) :
  set_nn_payment_details response (snd (set_nn_payment_details response f))
  = set_nn_payment_details response f.
Proof.
  destruct (set_nn_payment_details_writes (Radio := Radio) response) as (p & w & Hrun & Hw).
  rewrite (Hrun f). cbn. rewrite Hrun. cbn. now rewrite Hw.
Qed.

(** X3. Last write wins, key by key.  When a result with a wallet token
    is recorded and then a result without one, the context pairs the
    second result's payment details, booking details and flow with the
    first result's wallet token. *)
Theorem record_keeps_earlier_wallet_token {Radio : Type} (f : @Form Radio)
    (r1 pd1 bd1 pm1 wt1 cd1 r2 pd2 bd2 pm2 wt2 cd2 : jsval) :
  get_prop r1 "payment_details" = Normal pd1 ->
  get_prop r1 "booking_details" = Normal bd1 ->
  get_prop pd1 "process_mode" = Normal pm1 ->
  get_prop bd1 "wallet_token" = Normal wt1 ->
  get_prop r1 "card_details" = Normal cd1 ->
  get_prop r2 "payment_details" = Normal pd2 ->
  get_prop r2 "booking_details" = Normal bd2 ->
  get_prop pd2 "process_mode" = Normal pm2 ->
  get_prop bd2 "wallet_token" = Normal wt2 ->
  get_prop r2 "card_details" = Normal cd2 ->
  truthy wt1 = true ->
  truthy wt2 = false ->
  exists f' : @Form Radio,
    bind (set_nn_payment_details r1) (fun _ => set_nn_payment_details r2) f
      = (Normal (Fulfilled JUndefined), f') /\
    paymentContext f' !! "pm_data" = Some pd2 /\
    paymentContext f' !! "payment_details" = Some bd2 /\
    paymentContext f' !! "flow" = Some pm2 /\
    paymentContext f' !! "wallet_token" = Some wt1.
Proof.
  intros Hpd1 Hbd1 Hpm1 Hwt1 Hcd1 Hpd2 Hbd2 Hpm2 Hwt2 Hcd2 T1 T2.
  unfold bind.
  rewrite (set_nn_payment_details_ok f r1 pd1 bd1 pm1 wt1 cd1) by assumption.
  rewrite (set_nn_payment_details_ok _ r2 pd2 bd2 pm2 wt2 cd2) by assumption.
  eexists. split; [reflexivity|]. cbn. rewrite T1, T2.
  destruct (truthy cd1), (truthy cd2); repeat split; by simplify_map_eq.
Qed.

Lemma record_keeps_earlier_wallet_token_witness :
  exists f' : @Form Shop.radio,
    bind (set_nn_payment_details Shop.wallet_success)
         (fun _ => set_nn_payment_details Shop.payment_accepted)
         (Shop.page (Some Shop.novalnet_radio) ∅)
      = (Normal (Fulfilled JUndefined), f') /\
    paymentContext f' !! "pm_data" = Some Shop.card_payment_details /\
    paymentContext f' !! "wallet_token" = Some (JStr "tok_9f2").
Proof.
  destruct (record_keeps_earlier_wallet_token (Shop.page (Some Shop.novalnet_radio) ∅)
              Shop.wallet_success Shop.wallet_payment_details
              (JObj [("wallet_token", JStr "tok_9f2")]) (JStr "direct")
              (JStr "tok_9f2") JUndefined
              Shop.payment_accepted Shop.card_payment_details
              (JObj [("test_mode", JNum 1)]) (JStr "direct") JUndefined
              (JObj [("card_brand", JStr "visa")])
              eq_refl eq_refl eq_refl eq_refl eq_refl
              eq_refl eq_refl eq_refl eq_refl eq_refl eq_refl eq_refl)
    as (f' & Hrun & Hpm & _ & _ & Hwt).
  exists f'. auto.
Defined.

(** X4. What is recorded is what is sent.  With this provider's code in
    the context, recording a widget result and then preparing the route
    parameters yields [pm_data] equal to the result's payment details and
    [pay_data] equal to its booking details, unchanged, whatever the
    generic parameters held under these two keys; the other generic
    parameters pass through. *)
Theorem recorded_details_reach_payload {Radio : Type} (f : @Form Radio)
    (response pd bd pm wt cd : jsval) (transactionRouteParams : gmap string jsval) :
  ctx_read (paymentContext f) "providerCode" = JStr "novalnet" ->
  get_prop response "payment_details" = Normal pd ->
  get_prop response "booking_details" = Normal bd ->
  get_prop pd "process_mode" = Normal pm ->
  get_prop bd "wallet_token" = Normal wt ->
  get_prop response "card_details" = Normal cd ->
  exists (res : gmap string jsval) (f' : @Form Radio),
    bind (set_nn_payment_details response)
         (fun _ => _prepareTransactionRouteParams transactionRouteParams) f
      = (Normal res, f') /\
    res !! "pm_data" = Some pd /\
    res !! "pay_data" = Some bd /\
    (forall k, k <> "pm_data" -> k <> "pay_data" ->
       res !! k = transactionRouteParams !! k).
Proof.
  intros Hprov Hpd Hbd Hpm Hwt Hcd.
  unfold bind.
  rewrite (set_nn_payment_details_ok f response pd bd pm wt cd) by assumption.
  unfold _prepareTransactionRouteParams. run. cbn.
  unfold ctx_read in *.
  destruct (truthy wt), (truthy cd);
    repeat (rewrite lookup_insert_ne by discriminate); rewrite Hprov; cbn;
    repeat first [ rewrite lookup_insert_eq
                 | rewrite lookup_insert_ne by discriminate ]; cbn;
    (do 2 eexists; split; [reflexivity|]);
    (split; [|split]);
    try (rewrite lookup_union, lookup_insert_eq;
         now destruct (transactionRouteParams !! "pm_data"));
    try (rewrite lookup_union, lookup_insert_ne, lookup_insert_eq by discriminate;
         now destruct (transactionRouteParams !! "pay_data"));
    intros k N1 N2;
    rewrite lookup_union, !lookup_insert_ne, lookup_empty by congruence;
    now destruct (transactionRouteParams !! k).
Qed.

Lemma recorded_details_reach_payload_witness :
  exists (res : gmap string jsval) (f' : @Form Shop.radio),
    bind (set_nn_payment_details Shop.payment_accepted)
         (fun _ => _prepareTransactionRouteParams (<["pay_data" := JNull]> ∅))
         (Shop.page (Some Shop.novalnet_radio) (<["providerCode" := JStr "novalnet"]> ∅))
      = (Normal res, f') /\
    res !! "pm_data" = Some Shop.card_payment_details /\
    res !! "pay_data" = Some (JObj [("test_mode", JNum 1)]).
Proof.
  destruct (recorded_details_reach_payload
              (Shop.page (Some Shop.novalnet_radio) (<["providerCode" := JStr "novalnet"]> ∅))
              Shop.payment_accepted Shop.card_payment_details
              (JObj [("test_mode", JNum 1)]) (JStr "direct") JUndefined
              (JObj [("card_brand", JStr "visa")]) (<["pay_data" := JNull]> ∅))
    as (res & f' & Hrun & Hpm & Hpay & _); try reflexivity.
  exists res, f'. auto.
Defined.

(** ** The wallet completion handler, the other paths *)

(** X5. A completion that the widget does not report as FAILURE, with this
    provider's radio checked and a result carrying payment and booking
    details: the handler answers with the Success pair, records the result,
    and initiates the payment flow exactly once, with the checked option's
    provider code, option id and method code and with the widget's
    [process_mode] as flow.  The option id is stored under
    [paymentMethodId]; the button stays disabled. *)
Theorem completion_success_initiates_flow {Radio : Type} `{Host : HostForm Radio}
    (f : @Form Radio) (radio : Radio)
    (response result status pd bd pm wt cd : jsval) :
  get_prop response "result" = Normal result ->
  get_prop result "status" = Normal status ->
  strict_eq_str status "FAILURE" = false ->
  checkedRadio f = Some radio ->
  _getProviderCode radio = JStr "novalnet" ->
  get_prop response "payment_details" = Normal pd ->
  get_prop response "booking_details" = Normal bd ->
  get_prop pd "process_mode" = Normal pm ->
  get_prop bd "wallet_token" = Normal wt ->
  get_prop response "card_details" = Normal cd ->
  exists f' : @Form Radio,
    onProcessCompletion response f = (Normal SUCCESS_ack, f') /\
    calls f' = calls f ++
      [call_disableButton false;
       call_initiatePaymentFlow (JStr "novalnet") (_getPaymentOptionId radio)
         (_getPaymentMethodCode radio) pm] /\
    paymentContext f' !! "providerCode" = Some (JStr "novalnet") /\
    paymentContext f' !! "paymentOptionId" = Some (_getPaymentOptionId radio) /\
    paymentContext f' !! "paymentMethodId" = Some (_getPaymentOptionId radio) /\
    paymentContext f' !! "paymentMethodCode" = Some (_getPaymentMethodCode radio) /\
    paymentContext f' !! "providerId" = Some (_getProviderId radio) /\
    paymentContext f' !! "pm_data" = Some pd /\
    paymentContext f' !! "payment_details" = Some bd /\
    paymentContext f' !! "flow" = Some pm /\
    paymentContext f' !! "tokenId" = paymentContext f !! "tokenId" /\
    buttonDisabled f' = true.
Proof.
  intros Hres Hst Hnf Hradio Hprov Hpd Hbd Hpm Hwt Hcd.
  unfold onProcessCompletion, tokenizationRequested_of. run.
  rewrite Hres, Hst, Hnf. cbn. rewrite Hradio. cbn. rewrite Hprov. cbn.
  rewrite (set_nn_payment_details_ok _ response pd bd pm wt cd) by assumption.
  cbn.
  destruct (nullish (tokenize_checkbox_checked radio)); run; cbn;
    (eexists; split; [reflexivity|]); cbn; rewrite <- !app_assoc; cbn;
    unfold ctx_read;
    destruct (truthy wt), (truthy cd); repeat split;
    repeat first [ rewrite lookup_insert_eq
                 | rewrite lookup_insert_ne by discriminate ];
    reflexivity.
Qed.

Lemma completion_success_initiates_flow_witness :
  exists f' : @Form Shop.radio,
    onProcessCompletion (Host := Shop.host) Shop.wallet_success
        (Shop.started (Some Shop.novalnet_radio) ∅) = (Normal SUCCESS_ack, f') /\
    paymentContext f' !! "flow" = Some (JStr "direct") /\
    buttonDisabled f' = true.
Proof.
  destruct (completion_success_initiates_flow (Host := Shop.host)
              (Shop.started (Some Shop.novalnet_radio) ∅) Shop.novalnet_radio
              Shop.wallet_success (JObj [("status", JStr "SUCCESS")]) (JStr "SUCCESS")
              Shop.wallet_payment_details (JObj [("wallet_token", JStr "tok_9f2")])
              (JStr "direct") (JStr "tok_9f2") JUndefined
              eq_refl eq_refl eq_refl eq_refl eq_refl eq_refl eq_refl eq_refl eq_refl eq_refl)
    as (f' & Hrun & _ & _ & _ & _ & _ & _ & _ & _ & Hflow & _ & Hb).
  exists f'. auto.
Defined.

(** X6. The handler's answer and the payment flow go together.  For every
    response and every form, either the handler answers with the Success
    pair and has made exactly two calls, [_disableButton(false)] and one
    [_initiatePaymentFlow], or it does not answer with the Success pair
    and [_disableButton(false)] is the only call it has made. *)
Theorem completion_acknowledges_what_it_initiates {Radio : Type}
    `{Host : HostForm Radio} (response : jsval) (f : @Form Radio) :
  let r := onProcessCompletion response f in
  (fst r = Normal SUCCESS_ack /\
   exists c, is_initiatePaymentFlow c = true /\
             calls (snd r) = calls f ++ [call_disableButton false; c])
  \/
  (fst r <> Normal SUCCESS_ack /\
   calls (snd r) = calls f ++ [call_disableButton false]).
Proof.
  cbv zeta. unfold onProcessCompletion, tokenizationRequested_of. run.
  destruct (get_prop response "result") as [result|]; cbn;
    [|right; split; [discriminate | reflexivity]].
  destruct (get_prop result "status") as [status|]; cbn;
    [|right; split; [discriminate | reflexivity]].
  destruct (strict_eq_str status "FAILURE"); cbn;
    [right; split; [discriminate | reflexivity]|].
  destruct (checkedRadio f) as [radio|]; cbn;
    [|right; split; [discriminate | reflexivity]].
  destruct (strict_eq_str (_getProviderCode radio) "novalnet"); cbn;
    [|right; split; [discriminate | reflexivity]].
  match goal with
  | |- context [set_nn_payment_details response ?g] =>
      destruct (set_nn_payment_details_frame response g) as [pc Hpc];
      destruct (set_nn_payment_details_returns response g) as (p & g' & Hrun);
      rewrite Hrun in *; cbn in Hpc; subst g'
  end.
  cbn. left.
  destruct (nullish (tokenize_checkbox_checked radio)); run; cbn;
    (split; [reflexivity|]); eexists; (split; [|rewrite <- app_assoc; reflexivity]);
    reflexivity.
Qed.

(** X7. A completion whose result carries no payment details is still
    acknowledged as Success: the rejection inside [set_nn_payment_details]
    is not seen by the handler, which goes on to initiate the payment flow
    with the flow the context held before, and leaves [pm_data] holding
    the missing value. *)
Theorem completion_without_payment_details {Radio : Type} `{Host : HostForm Radio}
    (f : @Form Radio) (radio : Radio) (response result status pd bd : jsval) :
  get_prop response "result" = Normal result ->
  get_prop result "status" = Normal status ->
  strict_eq_str status "FAILURE" = false ->
  checkedRadio f = Some radio ->
  _getProviderCode radio = JStr "novalnet" ->
  get_prop response "payment_details" = Normal pd ->
  nullish pd = true ->
  get_prop response "booking_details" = Normal bd ->
  exists f' : @Form Radio,
    onProcessCompletion response f = (Normal SUCCESS_ack, f') /\
    calls f' = calls f ++
      [call_disableButton false;
       call_initiatePaymentFlow (JStr "novalnet") (_getPaymentOptionId radio)
         (_getPaymentMethodCode radio) (ctx_read (paymentContext f) "flow")] /\
    paymentContext f' !! "pm_data" = Some pd /\
    paymentContext f' !! "flow" = paymentContext f !! "flow".
Proof.
  intros Hres Hst Hnf Hradio Hprov Hpd Npd Hbd.
  unfold onProcessCompletion, tokenizationRequested_of,
    set_nn_payment_details, set_nn_payment_details_body. run.
  rewrite Hres, Hst, Hnf. cbn. rewrite Hradio. cbn. rewrite Hprov. cbn.
  rewrite Hpd, Hbd. cbn.
  assert (get_prop pd "process_mode" = Abrupt TypeError) as ->
    by (destruct pd; try discriminate; reflexivity).
  cbn.
  destruct (nullish (tokenize_checkbox_checked radio)); run; cbn;
    (eexists; split; [reflexivity|]); cbn; rewrite <- !app_assoc; cbn;
    unfold ctx_read; repeat split;
    repeat first [ rewrite lookup_insert_eq
                 | rewrite lookup_insert_ne by discriminate ];
    reflexivity.
Qed.

Lemma completion_without_payment_details_witness :
  exists f' : @Form Shop.radio,
    onProcessCompletion (Host := Shop.host)
        (JObj [("result", JObj [("status", JStr "SUCCESS")])])
        (Shop.started (Some Shop.novalnet_radio) (<["flow" := JStr "redirect"]> ∅))
      = (Normal SUCCESS_ack, f') /\
    paymentContext f' !! "pm_data" = Some JUndefined /\
    paymentContext f' !! "flow" = Some (JStr "redirect").
Proof.
  destruct (completion_without_payment_details (Host := Shop.host)
              (Shop.started (Some Shop.novalnet_radio) (<["flow" := JStr "redirect"]> ∅))
              Shop.novalnet_radio
              (JObj [("result", JObj [("status", JStr "SUCCESS")])])
              (JObj [("status", JStr "SUCCESS")]) (JStr "SUCCESS") JUndefined JUndefined
              eq_refl eq_refl eq_refl eq_refl eq_refl eq_refl eq_refl eq_refl)
    as (f' & Hrun & _ & Hpm & Hflow).
  exists f'. split; [exact Hrun|]. split; [exact Hpm|]. rewrite Hflow. reflexivity.
Defined.

(** X8. A completion without [result] makes the handler throw a
    [TypeError]: by then the button has been disabled by
    [_disableButton(false)], and nothing else has happened; the context is
    as it was and no acknowledgement reaches the widget. *)
Theorem completion_without_result_throws {Radio : Type} `{Host : HostForm Radio}
    (f : @Form Radio) (response result : jsval) :
  get_prop response "result" = Normal result ->
  nullish result = true ->
  exists f' : @Form Radio,
    onProcessCompletion response f = (Abrupt TypeError, f') /\
    calls f' = calls f ++ [call_disableButton false] /\
    paymentContext f' = paymentContext f /\
    buttonDisabled f' = true.
Proof.
  intros Hres Hn.
  unfold onProcessCompletion. run. rewrite Hres. cbn.
  assert (get_prop result "status" = Abrupt TypeError) as ->
    by (destruct result; try discriminate; reflexivity).
  cbn. eexists. split; [reflexivity|]. cbn. auto.
Qed.

Lemma completion_without_result_throws_witness :
  exists f' : @Form Shop.radio,
    onProcessCompletion (Host := Shop.host) Shop.no_result
        (Shop.started (Some Shop.novalnet_radio) ∅) = (Abrupt TypeError, f') /\
    buttonDisabled f' = true.
Proof.
  destruct (completion_without_result_throws (Host := Shop.host)
              (Shop.started (Some Shop.novalnet_radio) ∅) Shop.no_result JUndefined
              eq_refl eq_refl)
    as (f' & Hrun & _ & _ & Hb).
  exists f'. auto.
Defined.

(** ** Submitting with this provider *)

(** X9. A submit with this provider's radio checked, outside the
    assign-token path, on a started form: the handler stops the event,
    disables the button and blocks the UI, and asks the widget once for
    the payment; it neither initiates the payment flow nor calls the
    remote endpoint itself.  The callback it leaves with the widget holds
    the checked option's provider code, option id and method code.  The
    option id goes to [tokenId] when the option is a token and to
    [paymentMethodId] otherwise, never to both. *)
Theorem novalnet_submit_asks_widget {Radio : Type} `{Host : HostForm Radio}
    (f : @Form Radio) (radio : Radio) (w : nat) :
  checkedRadio f = Some radio ->
  _getProviderCode radio = JStr "novalnet" ->
  strict_eq_str (_getPaymentFlow (paymentContext f) radio) "token"
    && truthy (ctx_read (paymentContext f) "assignTokenRoute") = false ->
  novalnetPaymentIframe f = Some w ->
  exists f' : @Form Radio,
    _submitForm f =
      (Normal (awaiting_getPayment (JStr "novalnet") (_getPaymentOptionId radio)
                 (_getPaymentMethodCode radio)), f') /\
    calls f' = calls f ++ [ev_stopPropagation; ev_preventDefault;
                           call_disableButton true; widget_getPayment w] /\
    buttonDisabled f' = true /\ uiBlocked f' = true /\
    paymentContext f' !! "flow" = Some (_getPaymentFlow (paymentContext f) radio) /\
    paymentContext f' !! "providerCode" = Some (JStr "novalnet") /\
    paymentContext f' !! "paymentOptionId" = Some (_getPaymentOptionId radio) /\
    paymentContext f' !! "paymentMethodCode" = Some (_getPaymentMethodCode radio) /\
    paymentContext f' !! "providerId" = Some (_getProviderId radio) /\
    (if strict_eq_str (_getPaymentOptionType radio) "token"
     then paymentContext f' !! "tokenId" = Some (_getPaymentOptionId radio) /\
          paymentContext f' !! "paymentMethodId" = paymentContext f !! "paymentMethodId"
     else paymentContext f' !! "paymentMethodId" = Some (_getPaymentOptionId radio) /\
          paymentContext f' !! "tokenId" = paymentContext f !! "tokenId").
Proof.
  intros Hradio Hprov Htok Hw.
  unfold _submitForm, tokenizationRequested_of. run. cbn.
  rewrite Hradio. cbn. rewrite Hprov. cbn.
  assert (ctx_read
            (<["providerCode" := JStr "novalnet"]>
               (<["paymentOptionId" := _getPaymentOptionId radio]>
                  (<["flow" := _getPaymentFlow (paymentContext f) radio]>
                     (paymentContext f)))) "assignTokenRoute"
          = ctx_read (paymentContext f) "assignTokenRoute") as ->.
  { unfold ctx_read. now rewrite !lookup_insert_ne by discriminate. }
  rewrite Htok. cbn.
  destruct (strict_eq_str (_getPaymentOptionType radio) "token"); run; cbn;
    destruct (nullish (tokenize_checkbox_checked radio)); run; cbn;
    rewrite Hw; cbn;
    (eexists; split; [reflexivity|]); cbn; rewrite <- !app_assoc; cbn;
    rewrite orb_true_r; simplify_map_eq; repeat split; reflexivity.
Qed.

Lemma novalnet_submit_asks_widget_witness :
  exists f' : @Form Shop.radio,
    _submitForm (Host := Shop.host) (Shop.started (Some Shop.novalnet_radio) ∅)
      = (Normal (awaiting_getPayment (JStr "novalnet") (JNum 7) (JStr "novalnet")), f') /\
    uiBlocked f' = true.
Proof.
  destruct (novalnet_submit_asks_widget (Host := Shop.host)
              (Shop.started (Some Shop.novalnet_radio) ∅) Shop.novalnet_radio 0)
    as (f' & Hrun & _ & _ & Hui & _); try reflexivity.
  exists f'. auto.
Defined.

(** X10. However [_submitForm] ends, by returning or by throwing, the
    button is disabled and the UI is blocked afterwards, and the handler
    itself has not enabled the button, called the remote endpoint,
    initiated the payment flow, shown a dialog or navigated. *)
Theorem submit_blocks_and_waits {Radio : Type} `{Host : HostForm Radio}
    (f : @Form Radio) :
  let f' := snd (_submitForm f) in
  buttonDisabled f' = true /\ uiBlocked f' = true /\
  filter (fun c => is_enableButton c) (calls f')
    = filter (fun c => is_enableButton c) (calls f) /\
  filter (fun c => is_remote_call c) (calls f')
    = filter (fun c => is_remote_call c) (calls f) /\
  filter (fun c => is_initiatePaymentFlow c) (calls f')
    = filter (fun c => is_initiatePaymentFlow c) (calls f) /\
  filter (fun c => is_dialog c) (calls f')
    = filter (fun c => is_dialog c) (calls f) /\
  filter (fun c => is_navigation c) (calls f')
    = filter (fun c => is_navigation c) (calls f).
Proof.
  cbv zeta. unfold _submitForm, tokenizationRequested_of. run. cbn.
  assert (forall b, b || true = true) as Hor by (intros []; reflexivity).
  destruct (checkedRadio f) as [radio|]; cbn;
    [|rewrite Hor, !filter_app; cbn; rewrite !app_nil_r; auto 10].
  destruct (strict_eq_str (_getProviderCode radio) "novalnet"); cbn;
    [|rewrite Hor, !filter_app; cbn; rewrite !app_nil_r; auto 10].
  destruct (strict_eq_str _ "token" && truthy _); cbn;
    [rewrite Hor, !filter_app; cbn; rewrite !app_nil_r; auto 10|].
  destruct (strict_eq_str (_getPaymentOptionType radio) "token"); run; cbn;
    destruct (nullish (tokenize_checkbox_checked radio)); run; cbn;
    destruct (novalnetPaymentIframe f); cbn;
    rewrite Hor, !filter_app; cbn; rewrite !app_nil_r; auto 10.
Qed.

(** X11. The assign-token path.  With this provider's radio checked, the
    flow read as ['token'] and an assign-token route in the context, the
    handler calls [_assignToken] with the checked option's id and makes no
    call on the widget, so it does not need [start] to have run; of the
    context it writes [flow], [paymentOptionId] and [providerCode] only. *)
Theorem token_submit_assigns_token {Radio : Type} `{Host : HostForm Radio}
    (f : @Form Radio) (radio : Radio) :
  checkedRadio f = Some radio ->
  _getProviderCode radio = JStr "novalnet" ->
  _getPaymentFlow (paymentContext f) radio = JStr "token" ->
  truthy (ctx_read (paymentContext f) "assignTokenRoute") = true ->
  exists f' : @Form Radio,
    _submitForm f = (Normal token_assigned, f') /\
    calls f' = calls f ++ [ev_stopPropagation; ev_preventDefault;
                           call_disableButton true;
                           call_assignToken (_getPaymentOptionId radio)] /\
    paymentContext f' =
      <["providerCode" := JStr "novalnet"]>
        (<["paymentOptionId" := _getPaymentOptionId radio]>
           (<["flow" := JStr "token"]> (paymentContext f))) /\
    (forall k, k <> "flow" -> k <> "paymentOptionId" -> k <> "providerCode" ->
       paymentContext f' !! k = paymentContext f !! k).
Proof.
  intros Hradio Hprov Hflow Hroute.
  unfold _submitForm. run. cbn.
  rewrite Hradio. cbn. rewrite Hprov, Hflow. cbn.
  assert (ctx_read
            (<["providerCode" := JStr "novalnet"]>
               (<["paymentOptionId" := _getPaymentOptionId radio]>
                  (<["flow" := JStr "token"]> (paymentContext f)))) "assignTokenRoute"
          = ctx_read (paymentContext f) "assignTokenRoute") as ->.
  { unfold ctx_read. now rewrite !lookup_insert_ne by discriminate. }
  rewrite Hroute. cbn.
  eexists. split; [reflexivity|]. cbn. rewrite <- !app_assoc. cbn.
  repeat split.
  intros k N1 N2 N3. now rewrite !lookup_insert_ne by congruence.
Qed.

Lemma token_submit_assigns_token_witness :
  exists f' : @Form Shop.radio,
    _submitForm (Host := Shop.host)
        (Shop.page (Some (Shop.mkRadio "novalnet" 12 "novalnet" 3 "token"))
                   (<["assignTokenRoute" := JStr "/my/payment_method/assign_token"]> ∅))
      = (Normal token_assigned, f') /\
    filter (fun c => is_widget_call c) (calls f') = [].
Proof.
  destruct (token_submit_assigns_token (Host := Shop.host)
              (Shop.page (Some (Shop.mkRadio "novalnet" 12 "novalnet" 3 "token"))
                 (<["assignTokenRoute" := JStr "/my/payment_method/assign_token"]> ∅))
              (Shop.mkRadio "novalnet" 12 "novalnet" 3 "token"))
    as (f' & Hrun & Hcalls & _); try reflexivity.
  exists f'. split; [exact Hrun|]. rewrite Hcalls. reflexivity.
Defined.

(** ** The answer to [getPayment], the accepted side *)

(** X13. An accepted answer carrying payment and booking details: the
    callback records the answer and initiates the payment flow exactly
    once, with the three values it closed over at submit time and with the
    widget's [process_mode] as flow.  It shows no dialog and does not
    enable the button; it unblocks the UI exactly on pages whose path
    contains ['/donation']. *)
Theorem accepted_answer_initiates_flow {Radio : Type} `{Host : HostForm Radio}
    (f : @Form Radio)
    (providerCode paymentOptionId pmCode data result statusCode pd bd pm wt cd : jsval) :
  get_prop data "result" = Normal result ->
  truthy result = true ->
  get_prop result "statusCode" = Normal statusCode ->
  loose_eq_100 statusCode = true ->
  get_prop data "payment_details" = Normal pd ->
  get_prop data "booking_details" = Normal bd ->
  get_prop pd "process_mode" = Normal pm ->
  get_prop bd "wallet_token" = Normal wt ->
  get_prop data "card_details" = Normal cd ->
  exists f' : @Form Radio,
    getPayment_callback providerCode paymentOptionId pmCode data f = (Normal tt, f') /\
    calls f' = calls f ++
      call_initiatePaymentFlow providerCode paymentOptionId pmCode pm
      :: (if includes "/donation" (pathname f) then [call_ui_unblock] else []) /\
    paymentContext f' !! "pm_data" = Some pd /\
    paymentContext f' !! "payment_details" = Some bd /\
    paymentContext f' !! "flow" = Some pm /\
    buttonDisabled f' = buttonDisabled f /\
    uiBlocked f' = (if includes "/donation" (pathname f) then false else uiBlocked f).
Proof.
  intros Hres Htr Hsc Hacc Hpd Hbd Hpm Hwt Hcd.
  unfold getPayment_callback, getPayment_accepted, getPayment_accept. run.
  rewrite Hres. cbn. rewrite Htr, Hsc. cbn. rewrite Hacc.
  rewrite (set_nn_payment_details_ok f data pd bd pm wt cd) by assumption.
  cbn.
  assert (ctx_read
            (if truthy cd
             then <["card_details" := cd]>
                    (if truthy wt
                     then <["wallet_token" := wt]>
                            (<["flow" := pm]> (<["payment_details" := bd]>
                               (<["pm_data" := pd]> (paymentContext f))))
                     else <["flow" := pm]> (<["payment_details" := bd]>
                            (<["pm_data" := pd]> (paymentContext f))))
             else if truthy wt
                  then <["wallet_token" := wt]>
                         (<["flow" := pm]> (<["payment_details" := bd]>
                            (<["pm_data" := pd]> (paymentContext f))))
                  else <["flow" := pm]> (<["payment_details" := bd]>
                         (<["pm_data" := pd]> (paymentContext f)))) "flow" = pm) as ->.
  { unfold ctx_read. destruct (truthy cd), (truthy wt); by simplify_map_eq. }
  destruct (includes "/donation" (pathname f)); unfold ui_unblock; run; cbn;
    (eexists; split; [reflexivity|]); cbn; rewrite <- ?app_assoc; cbn;
    destruct (truthy cd), (truthy wt); simplify_map_eq; repeat split; reflexivity.
Qed.

Lemma accepted_answer_initiates_flow_witness :
  exists f' : @Form Shop.radio,
    getPayment_callback (Host := Shop.host) (JStr "novalnet") (JNum 7) (JStr "novalnet")
        Shop.payment_accepted (Shop.started (Some Shop.novalnet_radio) ∅) = (Normal tt, f') /\
    paymentContext f' !! "flow" = Some (JStr "direct").
Proof.
  destruct (accepted_answer_initiates_flow (Host := Shop.host)
              (Shop.started (Some Shop.novalnet_radio) ∅)
              (JStr "novalnet") (JNum 7) (JStr "novalnet") Shop.payment_accepted
              (JObj [("statusCode", JNum 100)]) (JNum 100)
              Shop.card_payment_details (JObj [("test_mode", JNum 1)]) (JStr "direct")
              JUndefined (JObj [("card_brand", JStr "visa")])
              eq_refl eq_refl eq_refl eq_refl eq_refl eq_refl eq_refl eq_refl eq_refl)
    as (f' & Hrun & _ & _ & _ & Hflow & _).
  exists f'. auto.
Defined.

(** ** Finalizing, the other paths *)

(** X14. Without processing values ([undefined] or [null]) the method body
    throws on reading [reference]: the promise handed to the caller is
    rejected with a [TypeError], no remote call is made, there is no
    promise chain, and the form is untouched, whatever the reply would
    have been. *)
Theorem finalize_without_processing_values {Radio : Type} `{Host : HostForm Radio}
    (f : @Form Radio) (paymentOptionId pmCode processingValues : jsval)
    (reply : RpcReply) :
  nullish processingValues = true ->
  _processDirectFlow (JStr "novalnet") paymentOptionId pmCode processingValues reply f
  = (Normal (Some (Rejected TypeError, None)), f).
Proof.
  intros Hn. unfold _processDirectFlow, processNovalnetPayment. run. cbn.
  destruct processingValues; try discriminate; cbn; now destruct f.
Qed.

Lemma finalize_without_processing_values_witness :
  _processDirectFlow (Host := Shop.host) (JStr "novalnet") (JNum 7) (JStr "novalnet")
      JUndefined rpc_resolved (Shop.started (Some Shop.novalnet_radio) ∅)
  = (Normal (Some (Rejected TypeError, None)), Shop.started (Some Shop.novalnet_radio) ∅).
Proof.
  exact (finalize_without_processing_values (Host := Shop.host)
           (Shop.started (Some Shop.novalnet_radio) ∅) (JNum 7) (JStr "novalnet")
           JUndefined rpc_resolved eq_refl).
Defined.

(** X15. One remote call at most, and navigation only after it succeeded.
    For every provider code, processing values and reply,
    [_processDirectFlow] adds exactly one remote call when the provider is
    this one and the processing values are there, and none otherwise; it
    sends the browser to the status page exactly when, in addition, the
    remote call succeeded; it calls the generic handler exactly when the
    provider is another one; and it never shows a dialog. *)
Theorem processDirectFlow_calls_remote_once {Radio : Type} `{Host : HostForm Radio}
    (f : @Form Radio) (providerCode paymentOptionId pmCode processingValues : jsval)
    (reply : RpcReply) :
  let f' := snd (_processDirectFlow providerCode paymentOptionId pmCode
                   processingValues reply f) in
  let ours := strict_eq_str providerCode "novalnet" in
  let sent := ours && negb (nullish processingValues) in
  length (filter (fun c => is_remote_call c) (calls f'))
    = (length (filter (fun c => is_remote_call c) (calls f))
       + (if sent then 1 else 0))%nat /\
  length (filter (fun c => is_navigation c) (calls f'))
    = (length (filter (fun c => is_navigation c) (calls f))
       + (if sent && match reply with rpc_resolved => true | _ => false end
          then 1 else 0))%nat /\
  length (filter (fun c => is_super_call c) (calls f'))
    = (length (filter (fun c => is_super_call c) (calls f))
       + (if ours then 0 else 1))%nat /\
  filter (fun c => is_dialog c) (calls f') = filter (fun c => is_dialog c) (calls f) /\
  paymentContext f' = paymentContext f.
Proof.
  cbv zeta.
  unfold _processDirectFlow, processNovalnetPayment, catch_callback, then_callback.
  run.
  destruct (strict_eq_str providerCode "novalnet"); cbn.
  - destruct processingValues; cbn; try (repeat split; lia);
      (destruct reply as [|error]; cbn;
       [|destruct (instanceof_RPCError error); cbn;
         [destruct (get_prop (error_data error) "message"); cbn|]]);
      rewrite !filter_app, ?length_app; simpl; rewrite ?app_nil_r;
      repeat split; lia.
  - rewrite !filter_app, ?length_app. simpl. rewrite ?app_nil_r. repeat split; lia.
Qed.

(** ** The widget's selection callback and the page handlers *)

(** X16. When the user picks a method inside the widget, the callback
    clicks this provider's radio and, on a page that has the pay button,
    hides the button exactly for the types ['GOOGLEPAY'] and ['APPLEPAY']
    and shows it for every other type. *)
Theorem selection_hides_button_for_wallets {Radio : Type} (f : @Form Radio)
    (data payment_details type : jsval) (display : string) :
  payButton f = Some display ->
  get_prop data "payment_details" = Normal payment_details ->
  get_prop payment_details "type" = Normal type ->
  exists f' : @Form Radio,
    selectedPayment_callback data f = (Normal tt, f') /\
    (payButton f' = Some "none" <->
     type = JStr "GOOGLEPAY" \/ type = JStr "APPLEPAY") /\
    (payButton f' = Some "block" <->
     type <> JStr "GOOGLEPAY" /\ type <> JStr "APPLEPAY") /\
    exists d, calls f' = calls f ++ [jq_trigger_click_novalnet_radio;
                                    payButton_set_display d] /\
              payButton f' = Some d.
Proof.
  intros Hbtn Hpd Hty.
  assert (strict_eq_str type "GOOGLEPAY" || strict_eq_str type "APPLEPAY" = true
          <-> type = JStr "GOOGLEPAY" \/ type = JStr "APPLEPAY") as Hw.
  { rewrite orb_true_iff, !strict_eq_str_true. reflexivity. }
  assert (exists f' : @Form Radio,
            selectedPayment_callback data f = (Normal tt, f') /\
            payButton f' =
              Some (if strict_eq_str type "GOOGLEPAY" || strict_eq_str type "APPLEPAY"
                    then "none" else "block") /\
            calls f' = calls f ++
              [jq_trigger_click_novalnet_radio;
               payButton_set_display
                 (if strict_eq_str type "GOOGLEPAY" || strict_eq_str type "APPLEPAY"
                  then "none" else "block")])
    as (f' & Hrun & Hpay & Hcalls).
  { unfold selectedPayment_callback, click_novalnet_radio, payButton_style_display.
    run. cbn.
    destruct (novalnet_radio_input f); cbn;
      rewrite Hbtn, Hpd; cbn; rewrite Hty; cbn; rewrite ?Hbtn;
      (eexists; split; [reflexivity|]); cbn; rewrite <- app_assoc;
      split; reflexivity. }
  exists f'. split; [exact Hrun|]. rewrite Hpay.
  destruct (strict_eq_str type "GOOGLEPAY" || strict_eq_str type "APPLEPAY").
  - split; [|split].
    + split; [intros _; now apply Hw | reflexivity].
    + split; [discriminate|]. intros [N1 N2].
      destruct (proj1 Hw eq_refl); contradiction.
    + eexists. split; [exact Hcalls | reflexivity].
  - split; [|split].
    + split; [discriminate|]. intros H. apply Hw in H. discriminate.
    + split; [|reflexivity]. intros _.
      split; intros ->; (assert (false = true) by (apply Hw; auto)); discriminate.
    + eexists. split; [exact Hcalls | reflexivity].
Qed.

Lemma selection_hides_button_for_wallets_witness :
  exists f' : @Form Shop.radio,
    selectedPayment_callback Shop.wallet_success (Shop.page (Some Shop.demo_radio) ∅)
      = (Normal tt, f') /\
    payButton f' = Some "none".
Proof.
  destruct (selection_hides_button_for_wallets (Shop.page (Some Shop.demo_radio) ∅)
              Shop.wallet_success Shop.wallet_payment_details (JStr "GOOGLEPAY") "block"
              eq_refl eq_refl eq_refl)
    as (f' & Hrun & Hnone & _).
  exists f'. split; [exact Hrun|]. apply Hnone. now left.
Defined.

(** A change event on a page with the pay button, whatever the number of
    attached copies of the handler. *)
Lemma dispatch_window_change {Radio : Type} (n : nat) :
  forall (g : @Form Radio) (d : string),
    payButton g = Some d ->
    exists g' : @Form Radio,
      dispatch (repeat window_change_listener n) JUndefined g = (Normal tt, g') /\
      novalnet_radio_checked g' = novalnet_radio_checked g /\
      payButton g' =
        (if novalnet_radio_checked g then Some d
         else match n with O => Some d | S _ => Some "block" end) /\
      calls g' = calls g ++
        repeat (payButton_set_display "block")
               (if novalnet_radio_checked g then 0 else n) /\
      paymentContext g' = paymentContext g.
Proof.
  induction n as [|n IH]; intros g d Hd.
  - exists g. cbn. repeat split.
    + now destruct (novalnet_radio_checked g).
    + destruct (novalnet_radio_checked g); cbn; now rewrite app_nil_r.
  - cbn [repeat dispatch run_listener].
    unfold bind, on_window_change, payButton_style_display, log.
    destruct (novalnet_radio_checked g) eqn:Hnn; cbn.
    + destruct (IH g d Hd) as (g' & Hrun & Hnn' & Hpay & Hcalls & Hctx).
      rewrite Hnn in *. exists g'. auto.
    + rewrite Hd. cbn.
      match goal with
      | |- context [dispatch _ _ ?h] =>
          destruct (IH h "block" eq_refl) as (g' & Hrun & Hnn' & Hpay & Hcalls & Hctx)
      end.
      cbn in *. rewrite Hnn in *. exists g'. rewrite Hrun. repeat split; auto.
      * rewrite Hpay. now destruct n.
      * rewrite Hcalls, <- app_assoc. reflexivity.
Qed.

(** X17. The pay button comes back.  When a change event reaches
    [window] on a page that has the pay button, every attached copy of the
    handler runs: if this provider's radio is not checked at that moment
    the button's display becomes ['block'], whatever it was before (for
    instance ['none'] after a wallet selection); if the radio is checked
    the button and the call log are left as they are.  The context is not
    touched. *)
Theorem change_event_shows_button_again {Radio : Type} (f : @Form Radio)
    (display : string) (n : nat) :
  payButton f = Some display ->
  window_change f = repeat window_change_listener (S n) ->
  exists f' : @Form Radio,
    fire_window_change f = (Normal tt, f') /\
    payButton f' = Some (if novalnet_radio_checked f then display else "block") /\
    calls f' = calls f ++
      repeat (payButton_set_display "block")
             (if novalnet_radio_checked f then 0 else S n) /\
    paymentContext f' = paymentContext f.
Proof.
  intros Hbtn Hwc.
  destruct (dispatch_window_change (S n) f display Hbtn)
    as (g' & Hrun & _ & Hpay & Hcalls & Hctx).
  exists g'. unfold fire_window_change. rewrite Hwc.
  split; [exact Hrun|]. split; [|split; [exact Hcalls|exact Hctx]].
  rewrite Hpay. now destruct (novalnet_radio_checked f).
Qed.

Lemma change_event_shows_button_again_witness :
  exists f' : @Form Shop.radio,
    fire_window_change
        (with_payButton (Some "none") (Shop.started (Some Shop.demo_radio) ∅))
      = (Normal tt, f') /\
    payButton f' = Some "block".
Proof.
  destruct (change_event_shows_button_again
              (with_payButton (Some "none") (Shop.started (Some Shop.demo_radio) ∅))
              "none" 0)
    as (f' & Hrun & Hpay & _); try reflexivity.
  exists f'. auto.
Defined.

(** X24. On a page without the pay button the two handlers differ.  The
    selection callback tests for the button and completes for every
    payload: it clicks this provider's radio and makes no other call, and
    it leaves the context as it was.  The change handler does not test,
    and throws a [TypeError] when this provider's radio is not checked at
    that moment. *)
Theorem missing_button_guarded_once {Radio : Type} (f : @Form Radio)
    (data : jsval) (ls : list Listener) :
  payButton f = None ->
  novalnet_radio_checked f = false ->
  window_change f = window_change_listener :: ls ->
  (exists f' : @Form Radio,
     selectedPayment_callback data f = (Normal tt, f') /\
     calls f' = calls f ++ [jq_trigger_click_novalnet_radio] /\
     payButton f' = None /\
     paymentContext f' = paymentContext f /\
     (forall r, novalnet_radio_input f = Some r ->
        checkedRadio f' = Some r /\ novalnet_radio_checked f' = true)) /\
  fire_window_change f = (Abrupt TypeError, f).
Proof.
  intros Hbtn Hnn Hwc. split.
  - unfold selectedPayment_callback, click_novalnet_radio. run. cbn.
    destruct (novalnet_radio_input f) as [r|]; cbn; rewrite Hbtn;
      (eexists; split; [reflexivity|]); cbn;
      (split; [reflexivity|]); (split; [exact Hbtn|]); (split; [reflexivity|]).
    + intros r' E. injection E as <-. auto.
    + intros r' E. discriminate.
  - unfold fire_window_change. rewrite Hwc. cbn.
    unfold bind, on_window_change, payButton_style_display.
    now rewrite Hnn, Hbtn.
Qed.

Lemma missing_button_guarded_once_witness :
  fire_window_change (with_payButton None (Shop.started (Some Shop.demo_radio) ∅))
  = (Abrupt TypeError, with_payButton None (Shop.started (Some Shop.demo_radio) ∅)).
Proof.
  refine (proj2 (missing_button_guarded_once _ JUndefined [] _ _ _)); reflexivity.
Defined.

(** ** Any number of starts *)

(** The form after [n] runs of [start]. *)
Lemma start_times_spec {Radio : Type} (n : nat) (f : @Form Radio) :
  exists f' : @Form Radio,
    start_times n f = (Normal tt, f') /\
    window_change f' = window_change f ++ repeat window_change_listener n /\
    provider_click f' = provider_click f ++ repeat provider_click_listener n /\
    widgets f' = widgets f ++ repeat (mkWidget 1 1) n /\
    novalnetPaymentIframe f' =
      match n with
      | O => novalnetPaymentIframe f
      | S k => Some (length (widgets f) + k)%nat
      end /\
    paymentContext f' = paymentContext f /\
    buttonDisabled f' = buttonDisabled f /\
    uiBlocked f' = uiBlocked f /\
    payButton f' = payButton f /\
    novalnet_radio_checked f' = novalnet_radio_checked f.
Proof.
  induction n as [|n (f' & Hrun & Hwc & Hpc & Hws & Hcur & Hctx & Hb & Hu & Hp & Hn)].
  - exists f. cbn. rewrite !app_nil_r. repeat split.
  - cbn [start_times]. unfold bind at 1. rewrite Hrun, start_spec. cbv zeta.
    eexists. split; [reflexivity|]. cbn.
    rewrite Hwc, Hpc, Hws, Hctx, Hb, Hu, Hp, Hn, length_app, repeat_length.
    rewrite <- !app_assoc.
    change [window_change_listener] with (repeat window_change_listener 1).
    change [provider_click_listener] with (repeat provider_click_listener 1).
    change [mkWidget 1 1] with (repeat (mkWidget 1 1) 1).
    rewrite <- !repeat_app, Nat.add_1_r. repeat split.
Qed.

(** A click on another provider's element, whatever the number of attached
    copies of the handler. *)
Lemma dispatch_provider_click {Radio : Type} (n w : nat) (provider_code : jsval) :
  strict_eq_str provider_code "novalnet" = false ->
  forall g : @Form Radio,
    novalnetPaymentIframe g = Some w ->
    exists g' : @Form Radio,
      dispatch (repeat provider_click_listener n) provider_code g = (Normal tt, g') /\
      calls g' = calls g ++ repeat (widget_uncheckPayment w) n.
Proof.
  intros Hcode. induction n as [|n IH]; intros g Hw.
  - exists g. cbn. now rewrite app_nil_r.
  - cbn [repeat dispatch run_listener].
    unfold bind, on_provider_click, on_widget, log. rewrite Hcode. cbn. rewrite Hw.
    match goal with
    | |- context [dispatch _ _ ?h] => destruct (IH h Hw) as (g' & Hrun & Hcalls)
    end.
    exists g'. rewrite Hrun. split; [reflexivity|].
    rewrite Hcalls. cbn. rewrite <- app_assoc. reflexivity.
Qed.

(** X18. Handlers pile up linearly.  On a form without handlers, [n] runs
    of [start] leave [n] copies of the window-change handler and [n]
    copies of the provider-click handler attached and [n] more widget
    objects, each with one registration on either channel.  One click on
    another provider's element then calls [uncheckPayment] [n] times, each
    time on the widget object of the last run. *)
Theorem starts_pile_up_handlers {Radio : Type} (n : nat) (f : @Form Radio)
    (provider_code : jsval) :
  window_change f = [] ->
  provider_click f = [] ->
  strict_eq_str provider_code "novalnet" = false ->
  exists f' : @Form Radio,
    start_times n f = (Normal tt, f') /\
    window_change f' = repeat window_change_listener n /\
    provider_click f' = repeat provider_click_listener n /\
    widgets f' = widgets f ++ repeat (mkWidget 1 1) n /\
    calls (snd (fire_provider_click provider_code f')) =
      calls f' ++ repeat (widget_uncheckPayment (Nat.pred (length (widgets f) + n))) n.
Proof.
  intros Hwc Hpc Hcode.
  destruct (start_times_spec n f)
    as (f' & Hrun & Hwc' & Hpc' & Hws & Hcur & _).
  exists f'. split; [exact Hrun|].
  rewrite Hwc', Hpc', Hws, Hwc, Hpc. cbn [app].
  repeat split.
  unfold fire_provider_click. rewrite Hpc', Hpc. cbn [app].
  destruct n as [|k].
  - cbn. now rewrite app_nil_r.
  - destruct (dispatch_provider_click (S k) (length (widgets f) + k) provider_code
                Hcode f' Hcur) as (g' & Hdis & Hcalls).
    rewrite Hdis. cbn [snd]. rewrite Hcalls.
    now rewrite Nat.add_succ_r.
Qed.

Lemma starts_pile_up_handlers_witness :
  exists f' : @Form Shop.radio,
    start_times 3 (Shop.page (Some Shop.demo_radio) ∅) = (Normal tt, f') /\
    length (provider_click f') = 3%nat /\
    calls (snd (fire_provider_click (JStr "demo") f')) =
      calls f' ++ [widget_uncheckPayment 2; widget_uncheckPayment 2;
                   widget_uncheckPayment 2].
Proof.
  destruct (starts_pile_up_handlers 3 (Shop.page (Some Shop.demo_radio) ∅) (JStr "demo"))
    as (f' & Hrun & _ & Hpc & _ & Hclick); try reflexivity.
  exists f'. split; [exact Hrun|]. split; [now rewrite Hpc | exact Hclick].
Defined.

(** ** Whole attempts *)

(** The form as [_submitForm] leaves it on the path that asks the widget. *)
Lemma novalnet_submit_state {Radio : Type} `{Host : HostForm Radio}
    (f : @Form Radio) (radio : Radio) (w : nat) :
  checkedRadio f = Some radio ->
  _getProviderCode radio = JStr "novalnet" ->
  strict_eq_str (_getPaymentFlow (paymentContext f) radio) "token"
    && truthy (ctx_read (paymentContext f) "assignTokenRoute") = false ->
  novalnetPaymentIframe f = Some w ->
  _submitForm f =
  (Normal (awaiting_getPayment (JStr "novalnet") (_getPaymentOptionId radio)
             (_getPaymentMethodCode radio)),
   mkForm
     (<["tokenizationRequested" :=
          if nullish (tokenize_checkbox_checked radio)
          then JBool (strict_eq_str (ctx_read (paymentContext f) "mode") "validation")
          else tokenize_checkbox_checked radio]>
        (<[(if strict_eq_str (_getPaymentOptionType radio) "token"
            then "tokenId" else "paymentMethodId") := _getPaymentOptionId radio]>
           (<["providerId" := _getProviderId radio]>
              (<["paymentMethodCode" := _getPaymentMethodCode radio]>
                 (<["providerCode" := JStr "novalnet"]>
                    (<["paymentOptionId" := _getPaymentOptionId radio]>
                       (<["flow" := _getPaymentFlow (paymentContext f) radio]>
                          (paymentContext f))))))))
     (checkedRadio f) (novalnet_radio_input f) (novalnet_radio_checked f) (payButton f) true true
     (pathname f) (Some w) (widgets f) (window_change f) (provider_click f)
     (calls f ++ [ev_stopPropagation; ev_preventDefault;
                  call_disableButton true; widget_getPayment w])).
Proof.
  intros Hradio Hprov Htok Hw.
  destruct f as [pc cr nvr nr pb bd ub pn cur ws wc pcl cs]. cbn in *. subst cr cur.
  unfold _submitForm, tokenizationRequested_of. run. cbn.
  rewrite Hprov. cbn.
  unfold ctx_read in *.
  rewrite !lookup_insert_ne by discriminate. rewrite Htok. cbn.
  destruct (strict_eq_str (_getPaymentOptionType radio) "token"); run; cbn;
    destruct (nullish (tokenize_checkbox_checked radio)); run; cbn;
    rewrite ?lookup_insert_ne by discriminate;
    rewrite <- !app_assoc, orb_true_r; reflexivity.
Qed.

(** The flow that the context holds after a recording that ran to its end. *)
Lemma flow_after_recording (m : gmap string jsval) (pd bd pm wt cd : jsval) :
  ctx_read
    (if truthy cd
     then <["card_details" := cd]>
            (if truthy wt
             then <["wallet_token" := wt]>
                    (<["flow" := pm]> (<["payment_details" := bd]> (<["pm_data" := pd]> m)))
             else <["flow" := pm]> (<["payment_details" := bd]> (<["pm_data" := pd]> m)))
     else if truthy wt
          then <["wallet_token" := wt]>
                 (<["flow" := pm]> (<["payment_details" := bd]> (<["pm_data" := pd]> m)))
          else <["flow" := pm]> (<["payment_details" := bd]> (<["pm_data" := pd]> m)))
    "flow" = pm.
Proof.
  unfold ctx_read.
  destruct (truthy cd), (truthy wt);
    rewrite ?lookup_insert_ne by discriminate; now rewrite lookup_insert_eq.
Qed.

(** X19. An attempt that goes through.  A submit with this provider's
    radio checked on a started form, an accepted answer carrying payment
    and booking details, processing values, and a remote call that
    succeeds: the calls made are, in this order, the event stops,
    [_disableButton(true)], one [getPayment], one [_initiatePaymentFlow]
    with the widget's [process_mode], the UI unblock on donation pages
    only, one remote call with the reference and transaction id of the
    processing values, and the navigation to ['/payment/status'].  The
    button is never enabled on the way. *)
Theorem accepted_attempt_ends_on_status_page {Radio : Type} `{Host : HostForm Radio}
    (f : @Form Radio) (radio : Radio) (w : nat)
    (data result statusCode pd bd pm wt cd : jsval) (fields : list (string * jsval)) :
  checkedRadio f = Some radio ->
  _getProviderCode radio = JStr "novalnet" ->
  strict_eq_str (_getPaymentFlow (paymentContext f) radio) "token"
    && truthy (ctx_read (paymentContext f) "assignTokenRoute") = false ->
  novalnetPaymentIframe f = Some w ->
  get_prop data "result" = Normal result ->
  truthy result = true ->
  get_prop result "statusCode" = Normal statusCode ->
  loose_eq_100 statusCode = true ->
  get_prop data "payment_details" = Normal pd ->
  get_prop data "booking_details" = Normal bd ->
  get_prop pd "process_mode" = Normal pm ->
  get_prop bd "wallet_token" = Normal wt ->
  get_prop data "card_details" = Normal cd ->
  exists f' : @Form Radio,
    checkout_attempt data (JObj fields) rpc_resolved f = (Normal tt, f') /\
    calls f' = calls f ++
      [ev_stopPropagation; ev_preventDefault; call_disableButton true;
       widget_getPayment w;
       call_initiatePaymentFlow (JStr "novalnet") (_getPaymentOptionId radio)
         (_getPaymentMethodCode radio) pm]
      ++ (if includes "/donation" (pathname f) then [call_ui_unblock] else [])
      ++ [call_jsonrpc "/payment/novalnet/simulate_payment"
            [("reference", lookup_field "reference" fields);
             ("nn_tid", lookup_field "nn_tid" fields)];
          set_window_location "/payment/status"] /\
    buttonDisabled f' = true /\
    uiBlocked f' = negb (includes "/donation" (pathname f)).
Proof.
  intros Hradio Hprov Htok Hw Hres Htr Hsc Hacc Hpd Hbd Hpm Hwt Hcd.
  unfold checkout_attempt. unfold bind at 1.
  rewrite (novalnet_submit_state f radio w) by assumption.
  cbv iota beta.
  unfold getPayment_callback, getPayment_accepted, getPayment_accept,
    _processDirectFlow, processNovalnetPayment, then_callback. run.
  rewrite Hres. cbn. rewrite Htr, Hsc. cbn. rewrite Hacc.
  rewrite (set_nn_payment_details_ok _ data pd bd pm wt cd) by assumption.
  cbn. rewrite flow_after_recording.
  destruct (includes "/donation" (pathname f)); unfold ui_unblock; run; cbn;
    rewrite ?Hres; cbn; rewrite ?Htr, ?Hsc; cbn; rewrite ?Hacc; cbn;
    (eexists; split; [reflexivity|]); cbn; rewrite <- !app_assoc; cbn; auto.
Qed.

Lemma accepted_attempt_ends_on_status_page_witness :
  exists f' : @Form Shop.radio,
    checkout_attempt (Host := Shop.host) Shop.payment_accepted Shop.processing_values
        rpc_resolved (Shop.started (Some Shop.novalnet_radio) ∅) = (Normal tt, f') /\
    buttonDisabled f' = true /\
    uiBlocked f' = true.
Proof.
  destruct (accepted_attempt_ends_on_status_page (Host := Shop.host)
              (Shop.started (Some Shop.novalnet_radio) ∅) Shop.novalnet_radio 0
              Shop.payment_accepted (JObj [("statusCode", JNum 100)]) (JNum 100)
              Shop.card_payment_details (JObj [("test_mode", JNum 1)]) (JStr "direct")
              JUndefined (JObj [("card_brand", JStr "visa")])
              [("reference", JStr "S00042-1"); ("nn_tid", JStr "15086600037449272")])
    as (f' & Hrun & _ & Hb & Hu); try reflexivity.
  exists f'. auto.
Defined.

(** X20. An attempt that the widget rejects.  A submit with this
    provider's radio checked on a started form, answered with a numeric
    status code other than 100: after the dialog the button is enabled and
    the UI unblocked again, so the user can retry, and no payment flow, no
    remote call and no navigation has happened, whatever processing values
    and reply were waiting. *)
Theorem rejected_attempt_can_be_retried {Radio : Type} `{Host : HostForm Radio}
    (f : @Form Radio) (radio : Radio) (w : nat)
    (data result message processingValues : jsval) (code : Z) (reply : RpcReply) :
  checkedRadio f = Some radio ->
  _getProviderCode radio = JStr "novalnet" ->
  strict_eq_str (_getPaymentFlow (paymentContext f) radio) "token"
    && truthy (ctx_read (paymentContext f) "assignTokenRoute") = false ->
  novalnetPaymentIframe f = Some w ->
  get_prop data "result" = Normal result ->
  get_prop result "statusCode" = Normal (JNum code) ->
  code <> 100%Z ->
  get_prop result "message" = Normal message ->
  exists f' : @Form Radio,
    checkout_attempt data processingValues reply f = (Normal tt, f') /\
    calls f' = calls f ++
      [ev_stopPropagation; ev_preventDefault; call_disableButton true;
       widget_getPayment w; call_displayErrorDialog [_t message];
       call_enableButton] /\
    buttonDisabled f' = false /\
    uiBlocked f' = false.
Proof.
  intros Hradio Hprov Htok Hw Hres Hsc Hne Hmsg.
  assert (truthy result = true) as Htr.
  { destruct result; cbn in Hsc; try discriminate; reflexivity. }
  apply Z.eqb_neq in Hne.
  unfold checkout_attempt. unfold bind at 1.
  rewrite (novalnet_submit_state f radio w) by assumption.
  cbv iota beta.
  unfold getPayment_callback, getPayment_accepted, getPayment_reject. run.
  rewrite Hres. cbn. rewrite Htr, Hsc. cbn. rewrite Hne. cbn.
  rewrite Hmsg. cbn.
  eexists. split; [reflexivity|]. cbn. rewrite <- !app_assoc. cbn. auto.
Qed.

Lemma rejected_attempt_can_be_retried_witness :
  exists f' : @Form Shop.radio,
    checkout_attempt (Host := Shop.host) Shop.card_declined Shop.processing_values
        rpc_resolved (Shop.started (Some Shop.novalnet_radio) ∅) = (Normal tt, f') /\
    buttonDisabled f' = false /\
    filter (fun c => is_remote_call c) (calls f') = [].
Proof.
  destruct (rejected_attempt_can_be_retried (Host := Shop.host)
              (Shop.started (Some Shop.novalnet_radio) ∅) Shop.novalnet_radio 0
              Shop.card_declined
              (JObj [("statusCode", JNum 150); ("message", JStr "Card declined")])
              (JStr "Card declined") Shop.processing_values 150 rpc_resolved)
    as (f' & Hrun & Hcalls & Hb & _); try reflexivity; try discriminate.
  exists f'. split; [exact Hrun|]. split; [exact Hb|]. rewrite Hcalls. reflexivity.
Defined.

(** X21. Another provider's payload stays generic.  After a submit with
    another provider's radio checked, [_prepareTransactionRouteParams]
    returns the generic parameters as they are, also when the context
    still holds details recorded for this provider earlier. *)
Theorem other_provider_payload_is_generic {Radio : Type} `{Host : HostForm Radio}
    (f : @Form Radio) (radio : Radio) (transactionRouteParams : gmap string jsval) :
  checkedRadio f = Some radio ->
  strict_eq_str (_getProviderCode radio) "novalnet" = false ->
  exists f' : @Form Radio,
    bind _submitForm (fun _ => _prepareTransactionRouteParams transactionRouteParams) f
      = (Normal transactionRouteParams, f') /\
    paymentContext f' !! "pm_data" = paymentContext f !! "pm_data" /\
    paymentContext f' !! "payment_details" = paymentContext f !! "payment_details".
Proof.
  intros Hradio Hprov.
  destruct f as [pc cr nvr nr pb bd ub pn cur ws wc pcl cs]. cbn in *. subst cr.
  unfold _submitForm, _prepareTransactionRouteParams. run. cbn.
  rewrite Hprov. cbn. unfold ctx_read. rewrite lookup_insert_eq. cbn.
  rewrite Hprov. cbn.
  eexists. split; [reflexivity|]. cbn.
  now rewrite !lookup_insert_ne by discriminate.
Qed.

Lemma other_provider_payload_is_generic_witness :
  exists f' : @Form Shop.radio,
    bind (_submitForm (Host := Shop.host))
         (fun _ => _prepareTransactionRouteParams (<["provider_id" := JNum 5]> ∅))
         (Shop.started (Some Shop.demo_radio)
            (<["pm_data" := Shop.card_payment_details]> ∅))
      = (Normal (<["provider_id" := JNum 5]> ∅), f') /\
    paymentContext f' !! "pm_data" = Some Shop.card_payment_details.
Proof.
  destruct (other_provider_payload_is_generic (Host := Shop.host)
              (Shop.started (Some Shop.demo_radio)
                 (<["pm_data" := Shop.card_payment_details]> ∅))
              Shop.demo_radio (<["provider_id" := JNum 5]> ∅))
    as (f' & Hrun & Hpm & _); try reflexivity.
  exists f'. split; [exact Hrun|]. rewrite Hpm. reflexivity.
Defined.

(** X22. A click on this provider's own element does nothing: whatever
    handlers are attached, and also before any widget object exists, the
    widget's selection is not cleared and the form is left as it was. *)
Theorem own_provider_click_is_ignored {Radio : Type} (f : @Form Radio) :
  Forall (fun l => l = provider_click_listener) (provider_click f) ->
  fire_provider_click (JStr "novalnet") f = (Normal tt, f).
Proof.
  unfold fire_provider_click.
  generalize (provider_click f) as ls.
  induction ls as [|l ls IH]; intros Hall; [reflexivity|].
  inversion Hall as [|? ? -> Hrest]; subst.
  cbn. unfold bind, on_provider_click. cbn. now apply IH.
Qed.

Lemma own_provider_click_is_ignored_witness :
  fire_provider_click (JStr "novalnet")
      (snd (start_times 2 (Shop.page (Some Shop.novalnet_radio) ∅)))
  = (Normal tt, snd (start_times 2 (Shop.page (Some Shop.novalnet_radio) ∅))).
Proof.
  apply own_provider_click_is_ignored. repeat constructor.
Defined.

(** X23. The form talks to the latest widget only.  After [start] has run
    one or more times, a submit with this provider's radio checked asks
    the widget object made by the last run for the payment; the objects of
    earlier runs receive no call. *)
Theorem submit_asks_latest_widget {Radio : Type} `{Host : HostForm Radio}
    (n : nat) (f : @Form Radio) (radio : Radio) :
  checkedRadio f = Some radio ->
  _getProviderCode radio = JStr "novalnet" ->
  strict_eq_str (_getPaymentFlow (paymentContext f) radio) "token"
    && truthy (ctx_read (paymentContext f) "assignTokenRoute") = false ->
  exists f1 f2 : @Form Radio,
    start_times (S n) f = (Normal tt, f1) /\
    _submitForm f1 =
      (Normal (awaiting_getPayment (JStr "novalnet") (_getPaymentOptionId radio)
                 (_getPaymentMethodCode radio)), f2) /\
    length (widgets f2) = (length (widgets f) + S n)%nat /\
    calls f2 = calls f1 ++ [ev_stopPropagation; ev_preventDefault;
                            call_disableButton true;
                            widget_getPayment (length (widgets f) + n)].
Proof.
  intros Hradio Hprov Htok.
  destruct (start_times_spec (S n) f)
    as (f1 & Hrun & _ & _ & Hws & Hcur & Hctx & _).
  assert (checkedRadio f1 = Some radio) as Hradio1.
  { revert Hrun. clear -Hradio. revert f1.
    induction (S n) as [|k IH]; intros f1.
    - cbn. now intros [= <-].
    - cbn [start_times]. unfold bind at 1.
      destruct (start_times k f) as [[[]|e] g] eqn:Hk; [|discriminate].
      rewrite start_spec. cbv zeta. intros [= <-]. cbn. now apply IH. }
  exists f1. eexists. split; [exact Hrun|].
  rewrite (novalnet_submit_state f1 radio (length (widgets f) + n));
    rewrite ?Hctx; try assumption.
  split; [reflexivity|]. cbn. rewrite Hws, length_app, repeat_length. auto.
Qed.

Lemma submit_asks_latest_widget_witness :
  exists f1 f2 : @Form Shop.radio,
    start_times 2 (Shop.page (Some Shop.novalnet_radio) ∅) = (Normal tt, f1) /\
    _submitForm (Host := Shop.host) f1 =
      (Normal (awaiting_getPayment (JStr "novalnet") (JNum 7) (JStr "novalnet")), f2) /\
    filter (fun c => is_widget_call c) (calls f2) =
      filter (fun c => is_widget_call c) (calls f1) ++ [widget_getPayment 1].
Proof.
  destruct (submit_asks_latest_widget (Host := Shop.host) 1
              (Shop.page (Some Shop.novalnet_radio) ∅) Shop.novalnet_radio)
    as (f1 & f2 & Hrun & Hsub & _ & Hcalls); try reflexivity.
  exists f1, f2. split; [exact Hrun|]. split; [exact Hsub|].
  rewrite Hcalls, filter_app. reflexivity.
Defined.
